(** * converter.py: Jupyter notebook to knowledge-repo conversion

    A shallow embedding of [src/converter.py] and the properties of its
    conversion logic.  Python values read from a notebook are JSON values;
    Python exceptions are an explicit error type; the file system, the
    console and the child processes started by the script are fields of a
    [World] record that is threaded through the effectful functions. *)

From Stdlib Require Import Ascii String.
From stdpp Require Import base option list gmap strings.

Set Warnings "-register-all".
Open Scope string_scope.

#[local] Arguments String.append !_ _ / : simpl nomatch.

(** ** Python exceptions *)

(** The exception classes the script can meet.  All of them derive from
    [Exception], so the [except Exception] clause of the driver catches
    every one of them. *)
Inductive exn : Type :=
  | KeyError (key : string)
  | IndexError
  | TypeError
  | ValueError
  | UnboundLocalError (var : string)
  | AttributeError (attr : string)
  | JSONDecodeError
  | FileNotFoundError (path : string)
  | IsADirectoryError (path : string)
  | PermissionError (path : string)
  | CalledProcessError (cmd : string)
  | ParserError (text : string).

Inductive result (A : Type) : Type :=
  | Ok (a : A)
  | Raise (e : exn).
Arguments Ok {A} a.
Arguments Raise {A} e.

#[export] Instance result_ret : MRet result := fun A a => Ok a.
#[export] Instance result_bind : MBind result := fun A B f m =>
  match m with
  | Ok a => f a
  | Raise e => Raise e
  end.

Definition is_Ok {A} (r : result A) : bool :=
  match r with Ok _ => true | Raise _ => false end.

(** ** JSON values, as produced by [json.load] *)

Inductive json : Type :=
  | JNull
  | JBool (b : bool)
  | JInt (n : Z)
  | JFloat (literal : string)
  | JStr (s : string)
  | JArr (items : list json)
  | JObj (fields : list (string * json)).

(** A Python [dict] keeps its keys in insertion order; an association
    list in that order is its model.  [json.load] never yields a key
    twice. *)
Definition dict := list (string * json).

Fixpoint dict_get (k : string) (d : dict) : option json :=
  match d with
  | [] => None
  | (k', v) :: d' => if String.eqb k k' then Some v else dict_get k d'
  end.

(** [d[k] = v]: an existing key keeps its position, a new key goes last. *)
Fixpoint dict_set (k : string) (v : json) (d : dict) : dict :=
  match d with
  | [] => [(k, v)]
  | (k', v') :: d' =>
      if String.eqb k k' then (k', v) :: d' else (k', v') :: dict_set k v d'
  end.

Definition dict_keys (d : dict) : list string := map fst d.

(** One-character strings of a string, as iteration over a [str] gives. *)
Fixpoint chars (s : string) : list string :=
  match s with
  | EmptyString => []
  | String c s' => String c EmptyString :: chars s'
  end.

(** [o[k]] for a string key [k]. *)
Definition getitem (o : json) (k : string) : result json :=
  match o with
  | JObj d => match dict_get k d with
              | Some v => Ok v
              | None => Raise (KeyError k)
              end
  | _ => Raise TypeError
  end.

(** [o[0]]. *)
Definition getitem0 (o : json) : result json :=
  match o with
  | JArr (x :: _) => Ok x
  | JArr [] => Raise IndexError
  | JStr (String c _) => Ok (JStr (String c EmptyString))
  | JStr EmptyString => Raise IndexError
  | JObj _ => Raise (KeyError "0")
  | _ => Raise TypeError
  end.

(** [for x in o]. *)
Definition py_iter (o : json) : result (list json) :=
  match o with
  | JArr l => Ok l
  | JStr s => Ok (map JStr (chars s))
  | JObj d => Ok (map JStr (dict_keys d))
  | _ => Raise TypeError
  end.

(** [o == s] for a string literal [s]. *)
Definition eq_str (o : json) (s : string) : bool :=
  match o with
  | JStr s' => String.eqb s' s
  | _ => false
  end.

(** [[a] + [b] + o]: list concatenation accepts lists only. *)
Definition list_concat (l : list json) (o : json) : result json :=
  match o with
  | JArr l' => Ok (JArr (l ++ l')%list)
  | _ => Raise TypeError
  end.

(** ** Slices of a string *)

(** [p[:i]] and [p[i:]] for [0 <= i]. *)
Fixpoint str_take (i : nat) (s : string) : string :=
  match i, s with
  | S i', String c s' => String c (str_take i' s')
  | _, _ => EmptyString
  end.

Fixpoint str_drop (i : nat) (s : string) : string :=
  match i, s with
  | S i', String _ s' => str_drop i' s'
  | _, _ => s
  end.

(** ** The title pattern *)

Definition newline : ascii := "010"%char.
Definition nl : string := String newline EmptyString.

(** The longest run of characters other than a line break at the start of
    [s], provided a line break follows it: what the greedy group of the
    title pattern (any characters, then a line break) captures. *)
Fixpoint until_newline (s : string) : option string :=
  match s with
  | EmptyString => None
  | String c s' =>
      if Ascii.eqb c newline then Some EmptyString
      else match until_newline s' with
           | Some t => Some (String c t)
           | None => None
           end
  end.

(** [title_pattern]: a hash sign, a space, a greedy group of any
    characters and a line break.  The result is group 1 of a match at the
    start of [line].  The dot matches every character but a line break, so
    the group stops at the first line break, which the pattern then
    requires. *)
Definition title_pattern (line : string) : option string :=
  if String.prefix "# " line then until_newline (str_drop 2 line) else None.

(** [pattern.match(source)]: only a string can be matched. *)
Definition re_match (pattern : string → option string) (source : json)
  : result (option string) :=
  match source with
  | JStr s => Ok (pattern s)
  | _ => Raise TypeError
  end.

Definition TABLE_OF_CONTENTS : string := "Table of Contents".

(** ** [IpynbConverter._title] *)

(** The [for cell in ...] loop.  [title] is the local variable of that
    name: [None] while it is unbound.  The result is its state when the
    loop is left, by exhaustion or by [break]. *)
Fixpoint _title_loop (cells : list json) (title : option string)
  : result (option string) :=
  match cells with
  | [] => Ok title
  | cell :: cells' =>
      cell_type ← getitem cell "cell_type";
      if eq_str cell_type "markdown" then
        src ← getitem cell "source";
        source ← getitem0 src;
        matched ← re_match title_pattern source;
        match matched with
        | Some title =>
            if negb (String.eqb title TABLE_OF_CONTENTS) then Ok (Some title)
            else _title_loop cells' (Some title)
        | None => _title_loop cells' title
        end
      else _title_loop cells' title
  end.

Definition _title (notebook : json) : result string :=
  cells ← getitem notebook "cells";
  cells ← py_iter cells;
  title ← _title_loop cells None;
  match title with
  | Some title => Ok title
  | None => Raise (UnboundLocalError "title")
  end.

(** ** Python string operations used by the script *)

(** [sub in s]. *)
Fixpoint contains (sub s : string) : bool :=
  String.prefix sub s ||
  match s with
  | EmptyString => false
  | String _ s' => contains sub s'
  end.

(** [s.rfind(c)] for a single character: the highest index of [c] in
    [s], or [-1]. *)
Fixpoint rfind (c : ascii) (s : string) : Z :=
  match s with
  | EmptyString => (-1)%Z
  | String a s' =>
      let r := rfind c s' in
      if (0 <=? r)%Z then (r + 1)%Z
      else if Ascii.eqb a c then 0%Z else (-1)%Z
  end.

(** [s.partition(sep)] when [sep] is found: the text before the leftmost
    occurrence of [sep] and the text after it. *)
Fixpoint partition (sep s : string) : option (string * string) :=
  if String.prefix sep s then Some (EmptyString, str_drop (String.length sep) s)
  else match s with
       | EmptyString => None
       | String c s' =>
           match partition sep s' with
           | Some (a, b) => Some (String c a, b)
           | None => None
           end
       end.

(** [s.split(sep)] for a non-empty [sep]: cut at the leftmost occurrence
    and go on after it.  [n] bounds the number of cuts; the length of [s]
    is enough. *)
Fixpoint split_upto (n : nat) (sep s : string) : list string :=
  match n with
  | O => [s]
  | S n' =>
      match partition sep s with
      | Some (a, b) => a :: split_upto n' sep b
      | None => [s]
      end
  end.

Definition py_split (sep s : string) : list string :=
  split_upto (String.length s) sep s.

(** [s.rstrip('/')]. *)
Fixpoint rstrip_sep (s : string) : string :=
  match s with
  | EmptyString => EmptyString
  | String c s' =>
      match rstrip_sep s' with
      | EmptyString => if Ascii.eqb c "/" then EmptyString else String c EmptyString
      | r => String c r
      end
  end.

(** [s == '/' * len(s)]. *)
Fixpoint all_sep (s : string) : bool :=
  match s with
  | EmptyString => true
  | String c s' => Ascii.eqb c "/" && all_sep s'
  end.

(** ** [os.path] on a POSIX system *)

(** [os.path.split(p)]. *)
Definition os_path_split (p : string) : string * string :=
  let i := Z.to_nat (rfind "/" p + 1) in
  let head := str_take i p in
  let tail := str_drop i p in
  let head :=
    if negb (String.eqb head EmptyString) && negb (all_sep head)
    then rstrip_sep head else head in
  (head, tail).

(** The [while] loop of [os.path.splitext], which skips the leading dots
    of the file name: [true] when a character other than a dot stands at
    an index from [filenameIndex] up to [dotIndex], exclusive. *)
Fixpoint splitext_loop (n : nat) (p : string) (filenameIndex : nat) : bool :=
  match n with
  | O => false
  | S n' =>
      if negb (String.eqb (str_take 1 (str_drop filenameIndex p)) ".") then true
      else splitext_loop n' p (S filenameIndex)
  end.

(** [os.path.splitext(p)]. *)
Definition os_path_splitext (p : string) : string * string :=
  let sepIndex := rfind "/" p in
  let dotIndex := rfind "." p in
  if (sepIndex <? dotIndex)%Z
     && splitext_loop (Z.to_nat (dotIndex - (sepIndex + 1))) p
                      (Z.to_nat (sepIndex + 1))
  then (str_take (Z.to_nat dotIndex) p, str_drop (Z.to_nat dotIndex) p)
  else (p, EmptyString).

(** [os.path.join(a, *p)]. *)
Definition os_path_join (a : string) (p : list string) : string :=
  fold_left
    (fun path b =>
       if String.prefix "/" b then b
       else if String.eqb path EmptyString
               || String.eqb (str_drop (String.length path - 1) path) "/"
            then path +:+ b
            else path +:+ "/" +:+ b)
    p a.

(** ** The converter object *)

Definition AUTHOR : string := "Ethen Liu".
Definition DATE_FORMAT : string := "%Y-%m-%d".
Definition REPO_NAME : string := "machine-learning".
Definition BASE_URL : string := "https://github.com/ethen8181/".
Definition CONVERTED : string := "-converted".

(** The attributes ending in an underscore, and [_path], exist only once
    [convert] has assigned them. *)
Record IpynbConverter : Type := {
  inplace : bool;
  knowledge_repo_path : string;
  date_created_ : option string;
  date_updated_ : option string;
  tags_ : option string;
  github_link_ : option string;
  title_ : option string;
  _path : option string
}.

Definition __init__ (knowledge_repo_path : string) (inplace : bool)
  : IpynbConverter :=
  {| inplace := inplace; knowledge_repo_path := knowledge_repo_path;
     date_created_ := None; date_updated_ := None; tags_ := None;
     github_link_ := None; title_ := None; _path := None |}.

(** Reading an attribute of [self]. *)
Definition attr (name : string) (a : option string) : result string :=
  match a with
  | Some v => Ok v
  | None => Raise (AttributeError name)
  end.

(** [_tags_and_github_link]: the two-name unpacking of [path.split] needs
    a list of exactly two parts. *)
Definition _tags_and_github_link (path : string) : result (string * string) :=
  match py_split REPO_NAME path with
  | [_; file_path] =>
      let '(_, file_name) := os_path_split file_path in
      let '(tags, _) := os_path_splitext file_name in
      let link := BASE_URL +:+ REPO_NAME +:+ "/blob/master" +:+ file_path in
      Ok (tags, link)
  | _ => Raise ValueError
  end.

(** The inner function of [_construct_header]; an item is a string or a
    list of strings. *)
Definition flatten_list (l : list (string + list string)) : list string :=
  fold_left
    (fun flat item =>
       match item with
       | inr items => (flat ++ items)%list
       | inl item => (flat ++ [item])%list
       end)
    l [].

Definition _construct_header (self : IpynbConverter) : result json :=
  let header := [("cell_type", JStr "raw"); ("metadata", JObj [])] in
  title ← attr "title_" (title_ self);
  tags ← attr "tags_" (tags_ self);
  date_created ← attr "date_created_" (date_created_ self);
  date_updated ← attr "date_updated_" (date_updated_ self);
  let header_text := [
    inl "---";
    inl ("title: " +:+ title);
    inl "authors:";
    inl ("- " +:+ AUTHOR);
    inl "tags:";
    inl ("- " +:+ tags);
    inl ("created_at: " +:+ date_created);
    inl ("updated_at: " +:+ date_updated);
    inl "tldr: Nothing for tldr section as of now.";
    inl "---"] in
  let header_text := flatten_list header_text in
  match last header_text with
  | Some final =>
      let header_text :=
        (map (fun text => text +:+ nl) (removelast header_text) ++ [final])%list in
      Ok (JObj (dict_set "source" (JArr (map JStr header_text)) header))
  | None => Raise IndexError
  end.

Definition _construct_github_link_cell (self : IpynbConverter) : result json :=
  github_link ← attr "github_link_" (github_link_ self);
  Ok (JObj [("cell_type", JStr "markdown");
            ("metadata", JObj []);
            ("source", JArr [JStr ("Link to original notebook: " +:+ github_link)])]).

(** [o[k] = v] for a string key. *)
Definition setitem (o : json) (k : string) (v : json) : result json :=
  match o with
  | JObj d => Ok (JObj (dict_set k v d))
  | _ => Raise TypeError
  end.

(** ** The world outside the interpreter *)

(** What a file holds: text that [json.load] parses to [document], or
    text that it rejects.  [json.dump] writes the former. *)
Inductive file : Type :=
  | JsonFile (document : json)
  | TextFile (text : string).

(** A child process started with [subprocess.Popen]: its command line,
    what it was sent on its standard input, and the status it exited
    with. *)
Record process : Type := {
  cmd : string;
  input : string;
  returncode : Z
}.

Record World : Type := {
  files : gmap string file;
  stdout : list string;
  processes : list process
}.

(** The directory layout that [os.path.isdir] and [os.listdir] report: a
    path is a directory with named entries, or it is not a directory.
    The script reads the layout and never changes it. *)
Inductive fstree : Type :=
  | FsFile
  | FsDir (entries : list (string * fstree)).

(** Effectful code: it may change the world and it may raise.  What was
    done before an exception stays done. *)
Definition IO (A : Type) : Type := World → result A * World.

#[export] Instance IO_ret : MRet IO := fun A a w => (Ok a, w).
#[export] Instance IO_bind : MBind IO := fun A B f m w =>
  match m w with
  | (Ok a, w') => f a w'
  | (Raise e, w') => (Raise e, w')
  end.

Definition lift {A} (r : result A) : IO A := fun w => (r, w).

(** [try: body except Exception as e: handler(e)]. *)
Definition try_except (body : IO unit) (handler : exn → IO unit) : IO unit :=
  fun w =>
    match body w with
    | (Ok _, w') => (Ok tt, w')
    | (Raise e, w') => handler e w'
    end.

Definition print (line : string) : IO unit := fun w =>
  (Ok tt, {| files := files w;
             stdout := stdout w ++ [line];
             processes := processes w |}).

(** [with open(path, encoding='utf-8') as f: json.load(f)]. *)
Definition json_load (path : string) : IO json := fun w =>
  match files w !! path with
  | Some (JsonFile document) => (Ok document, w)
  | Some (TextFile _) => (Raise JSONDecodeError, w)
  | None => (Raise (FileNotFoundError path), w)
  end.

(** [os.remove(path)]. *)
Definition os_remove (path : string) : IO unit := fun w =>
  match files w !! path with
  | Some _ => (Ok tt, {| files := delete path (files w);
                         stdout := stdout w;
                         processes := processes w |})
  | None => (Raise (FileNotFoundError path), w)
  end.

Definition set_date_created (date_created : string) (self : IpynbConverter)
  : IpynbConverter :=
  {| inplace := inplace self; knowledge_repo_path := knowledge_repo_path self;
     date_created_ := Some date_created; date_updated_ := date_updated_ self;
     tags_ := tags_ self; github_link_ := github_link_ self;
     title_ := title_ self; _path := _path self |}.

Definition set_date_updated (date_updated : string) (self : IpynbConverter)
  : IpynbConverter :=
  {| inplace := inplace self; knowledge_repo_path := knowledge_repo_path self;
     date_created_ := date_created_ self; date_updated_ := Some date_updated;
     tags_ := tags_ self; github_link_ := github_link_ self;
     title_ := title_ self; _path := _path self |}.

Definition set_tags_and_github_link (tags link : string)
    (self : IpynbConverter) : IpynbConverter :=
  {| inplace := inplace self; knowledge_repo_path := knowledge_repo_path self;
     date_created_ := date_created_ self; date_updated_ := date_updated_ self;
     tags_ := Some tags; github_link_ := Some link;
     title_ := title_ self; _path := _path self |}.

Definition set_title (title : string) (self : IpynbConverter)
  : IpynbConverter :=
  {| inplace := inplace self; knowledge_repo_path := knowledge_repo_path self;
     date_created_ := date_created_ self; date_updated_ := date_updated_ self;
     tags_ := tags_ self; github_link_ := github_link_ self;
     title_ := Some title; _path := _path self |}.

Definition set_path (path : string) (self : IpynbConverter)
  : IpynbConverter :=
  {| inplace := inplace self; knowledge_repo_path := knowledge_repo_path self;
     date_created_ := date_created_ self; date_updated_ := date_updated_ self;
     tags_ := tags_ self; github_link_ := github_link_ self;
     title_ := title_ self; _path := Some path |}.

(** The paths below [path] that are not directories, in the order the
    walk meets them. *)
Fixpoint leaves (path : string) (node : fstree) : list string :=
  match node with
  | FsFile => [path]
  | FsDir entries =>
      (fix each (entries : list (string * fstree)) : list string :=
         match entries with
         | [] => []
         | (f, child) :: rest =>
             (leaves (os_path_join path [f]) child ++ each rest)%list
         end) entries
  end.

(** The files the walk hands to the converter: no converted marker in
    the path, and the notebook extension. *)
Definition eligible (path : string) : bool :=
  negb (contains CONVERTED path)
  && String.eqb (snd (os_path_splitext path)) ".ipynb".

(** The number of places in [s] at which [sub] starts. *)
Fixpoint occurrences (sub s : string) : nat :=
  (if String.prefix sub s then 1 else 0) +
  match s with
  | EmptyString => 0
  | String _ s' => occurrences sub s'
  end.

(** ** Vocabulary of the statements *)

(** The character [c] occurs in [s]. *)
Fixpoint has_char (c : ascii) (s : string) : bool :=
  match s with
  | EmptyString => false
  | String a s' => Ascii.eqb a c || has_char c s'
  end.


(** A markdown cell whose [source] is a list of lines, the first of which
    is [line]. *)
Definition markdown_cell (cell : json) (line : string) : Prop :=
  ∃ d rest,
    cell = JObj d
    ∧ dict_get "cell_type" d = Some (JStr "markdown")
    ∧ dict_get "source" d = Some (JArr (JStr line :: rest)).

(** A cell of another type. *)
Definition other_cell (cell : json) : Prop :=
  ∃ d ty,
    cell = JObj d
    ∧ dict_get "cell_type" d = Some ty
    ∧ eq_str ty "markdown" = false.

(** A markdown cell whose first line is a level 1 header with text [t]. *)
Definition heading_cell (cell : json) (t : string) : Prop :=
  ∃ line, markdown_cell cell line ∧ title_pattern line = Some t.

(** A cell without a level 1 header in its first line. *)
Definition plain_cell (cell : json) : Prop :=
  other_cell cell
  ∨ ∃ line, markdown_cell cell line ∧ title_pattern line = None.

(** A cell that does not end the scan. *)
Definition passed_cell (cell : json) : Prop :=
  plain_cell cell ∨ heading_cell cell TABLE_OF_CONTENTS.

(** A markdown cell with the one-line source [line], and a code cell. *)
Definition markdown (line : string) : json :=
  JObj [("cell_type", JStr "markdown"); ("metadata", JObj []);
        ("source", JArr [JStr line])].

Definition code (line : string) : json :=
  JObj [("cell_type", JStr "code"); ("execution_count", JNull);
        ("metadata", JObj []); ("outputs", JArr []);
        ("source", JArr [JStr line])].

(** The object that [convert] leaves behind. *)
Definition converted_self (self : IpynbConverter)
    (date_created date_updated tags link title path : string)
  : IpynbConverter :=
  set_path path
    (set_title title
       (set_tags_and_github_link tags link
          (set_date_updated date_updated
             (set_date_created date_created self)))).

(** The path [convert] keeps in [_path]. *)
Definition output_path (inplace : bool) (path : string) : string :=
  if inplace then path
  else (os_path_splitext path).1 +:+ CONVERTED +:+ (os_path_splitext path).2.

(** The message that [add] sends to the child process, and the child
    process it starts for the notebook written at [path]. *)
Definition COMMIT_MESSAGE : string :=
  "generated by automated airbnb knowledge repo setup".

Definition add_cmd (knowledge_repo_path path tags : string) : string :=
  "knowledge_repo --repo " +:+ knowledge_repo_path +:+ " add " +:+ path
  +:+ " -p " +:+ os_path_join knowledge_repo_path ["project"; tags].

Definition registration (knowledge_repo_path path tags : string) (status : Z)
  : process :=
  {| cmd := add_cmd knowledge_repo_path path tags;
     input := COMMIT_MESSAGE;
     returncode := status |}.

(** The world with two more lines on the console. *)
Definition with_skip_lines (path text : string) (w : World) : World :=
  {| files := files w;
     stdout := (stdout w ++ ["Skipping: " +:+ path]) ++ [text];
     processes := processes w |}.

(** ** A sample repository *)

Definition sample_cells : list json :=
  [markdown ("# Table of Contents" +:+ nl);
   code "import numpy as np";
   markdown ("# Decision Tree (Classification)" +:+ nl)].

Definition sample_fields : dict :=
  [("cells", JArr sample_cells);
   ("metadata", JObj []);
   ("nbformat", JInt 4);
   ("nbformat_minor", JInt 2)].

Definition sample_notebook : json := JObj sample_fields.

(** A notebook without a level 1 header. *)
Definition untitled_notebook : json :=
  JObj [("cells", JArr [code "print(1)"; markdown "Some notes."]);
        ("metadata", JObj []);
        ("nbformat", JInt 4);
        ("nbformat_minor", JInt 2)].

Definition sample_root : string := "/Users/ethen/machine-learning/trees".
Definition sample_good : string :=
  "/Users/ethen/machine-learning/trees/decision_tree.ipynb".
Definition sample_bad : string :=
  "/Users/ethen/machine-learning/trees/broken.ipynb".
Definition sample_untitled : string :=
  "/Users/ethen/machine-learning/trees/untitled.ipynb".

Definition sample_world : World :=
  {| files := {[ sample_good := JsonFile sample_notebook;
                 sample_bad := TextFile "{";
                 sample_untitled := JsonFile untitled_notebook ]};
     stdout := [];
     processes := [] |}.

Definition sample_link : string :=
  "https://github.com/ethen8181/machine-learning/blob/master/trees/decision_tree.ipynb".

(** The converter after [convert] on the sample notebook. *)
Definition sample_self (inplace : bool) : IpynbConverter :=
  converted_self (__init__ "knowledge-repo" inplace)
    "2017-12-02" "2017-12-02" "decision_tree" sample_link
    "Decision Tree (Classification)" (output_path inplace sample_good).

Definition sample_header : json :=
  JObj [("cell_type", JStr "raw"); ("metadata", JObj []);
        ("source",
         JArr (map JStr
           [ "---" +:+ nl;
             "title: Decision Tree (Classification)" +:+ nl;
             "authors:" +:+ nl;
             "- Ethen Liu" +:+ nl;
             "tags:" +:+ nl;
             "- decision_tree" +:+ nl;
             "created_at: 2017-12-02" +:+ nl;
             "updated_at: 2017-12-02" +:+ nl;
             "tldr: Nothing for tldr section as of now." +:+ nl;
             "---" ]))].

Definition sample_link_cell : json :=
  JObj [("cell_type", JStr "markdown"); ("metadata", JObj []);
        ("source",
         JArr [JStr ("Link to original notebook: " +:+ sample_link)])].

Definition sample_converted : json :=
  JObj [("cells", JArr (sample_header :: sample_link_cell :: sample_cells));
        ("metadata", JObj []);
        ("nbformat", JInt 4);
        ("nbformat_minor", JInt 2)].

Definition sample_check_output (cmd : string) : result string :=
  Ok "Sat Dec 2 14:23:45 2017 -0800".

Definition sample_parse (date_str : string) : result (nat * nat * nat) :=
  Ok (2017, 12, 2)%nat.

Definition sample_strftime (date : nat * nat * nat) (format : string) : string :=
  "2017-12-02".

Definition sample_wait (cmd input : string) : Z := 0%Z.

Definition sample_open_w (path : string) : result unit := Ok tt.

(** A place where nothing may be written. *)
Definition read_only_open_w (path : string) : result unit :=
  Raise (PermissionError path).

Definition sample_str_exn (e : exn) : string :=
  match e with
  | KeyError key => key
  | IndexError => "list index out of range"
  | TypeError => "unsupported operand"
  | ValueError => "wrong number of values to unpack"
  | UnboundLocalError var => var
  | AttributeError attr => attr
  | JSONDecodeError => "Expecting value"
  | FileNotFoundError path => path
  | IsADirectoryError path => path
  | PermissionError path => path
  | CalledProcessError cmd => cmd
  | ParserError text => text
  end.

(** The names that [os.listdir] returns hold no slash, at any depth. *)
Fixpoint plain_names (node : fstree) : bool :=
  match node with
  | FsFile => true
  | FsDir entries =>
      (fix each (entries : list (string * fstree)) : bool :=
         match entries with
         | [] => true
         | (f, child) :: rest =>
             negb (has_char "/" f) && plain_names child && each rest
         end) entries
  end.

(** The strings that an item of [flatten_list] stands for. *)
Definition item_strings (item : string + list string) : list string :=
  match item with
  | inl s => [s]
  | inr items => items
  end.






Definition sample_marked_dir : string :=
  "/Users/ethen/machine-learning/old-converted".

Definition sample_marked_tree : fstree :=
  FsDir [("a.ipynb", FsFile); ("sub", FsDir [("b.ipynb", FsFile)])].

(** A notebook without cells, alone in its repository. *)
Definition empty_fields : dict :=
  [("cells", JArr []);
   ("metadata", JObj []);
   ("nbformat", JInt 4);
   ("nbformat_minor", JInt 2)].

Definition sample_empty : string :=
  "/Users/ethen/machine-learning/trees/empty.ipynb".

Definition empty_world : World :=
  {| files := {[ sample_empty := JsonFile (JObj empty_fields) ]};
     stdout := [];
     processes := [] |}.

Section Converter.

(** The programs and libraries the script calls: [git] through
    [subprocess.check_output], [dateutil]'s parser, [strftime], the
    exit status of a child process, and the text of an exception. *)
Context {datetime : Type}.
Variable check_output : string → result string.
Variable date_parser_parse : string → result datetime.
Variable strftime : datetime → string → string.
Variable wait : string → string → Z.
(** What [open(path, 'w')] does at a path: it opens the file, or it
    raises, as for a path in a directory that does not exist
    ([FileNotFoundError]), a path that is a directory
    ([IsADirectoryError]) or a file that may not be written
    ([PermissionError]).  The script makes and removes no directory and
    changes no permission, so the answer for a path is the same all
    through a run. *)
Variable open_w : string → result unit.
Variable str_exn : exn → string.

(** [with open(path, 'w', encoding='utf-8') as f: json.dump(notebook, f)]:
    nothing is written when the file cannot be opened. *)
Definition json_dump (notebook : json) (path : string) : IO unit := fun w =>
  match open_w path with
  | Ok _ =>
      (Ok tt, {| files := <[path := JsonFile notebook]> (files w);
                 stdout := stdout w;
                 processes := processes w |})
  | Raise e => (Raise e, w)
  end.

(** [p = subprocess.Popen(cmd, ..., shell=True); p.communicate(input)]:
    the script looks neither at the output nor at the status. *)
Definition Popen_communicate (cmd input : string) : IO unit := fun w =>
  (Ok tt, {| files := files w;
             stdout := stdout w;
             processes := processes w ++
               [{| cmd := cmd; input := input; returncode := wait cmd input |}]
          |}).

Definition _git_date_cmd (cmd : string) : result string :=
  date_str ← check_output cmd;
  date_dt ← date_parser_parse date_str;
  let formatted_date := strftime date_dt DATE_FORMAT in
  Ok formatted_date.

Definition _date_created (path : string) : result string :=
  let cmd := "git log --diff-filter=A --follow --format=%cd -1 -- " +:+ path in
  _git_date_cmd cmd.

Definition _date_updated (path : string) : result string :=
  let cmd := "git log --format=%cd -1 -- " +:+ path in
  _git_date_cmd cmd.

(** [convert]: the result is the notebook together with [self] as the
    method leaves it. *)
Definition convert (self : IpynbConverter) (path : string)
  : IO (IpynbConverter * json) :=
  date_created ← lift (_date_created path);
  let self := set_date_created date_created self in
  date_updated ← lift (_date_updated path);
  let self := set_date_updated date_updated self in
  tl ← lift (_tags_and_github_link path);
  let self := set_tags_and_github_link tl.1 tl.2 self in
  notebook ← json_load path;
  title ← lift (_title notebook);
  let self := set_title title self in
  header ← lift (_construct_header self);
  link_cell ← lift (_construct_github_link_cell self);
  cells ← lift (getitem notebook "cells");
  cells ← lift (list_concat ([header] ++ [link_cell]) cells);
  notebook ← lift (setitem notebook "cells" cells);
  let path :=
    if negb (inplace self) then
      let '(head, ext) := os_path_splitext path in
      let head := head +:+ "-converted" in
      head +:+ ext
    else path in
  let self := set_path path self in
  mret (self, notebook).

Definition add (self : IpynbConverter) (notebook : json) : IO unit :=
  path ← lift (attr "_path" (_path self));
  json_dump notebook path;;
  tags ← lift (attr "tags_" (tags_ self));
  let destination :=
    os_path_join (knowledge_repo_path self) ["project"; tags] in
  let cmd := "knowledge_repo --repo " +:+ knowledge_repo_path self
             +:+ " add " +:+ path +:+ " -p " +:+ destination in
  Popen_communicate cmd "generated by automated airbnb knowledge repo setup";;
  if negb (inplace self) then os_remove path else mret tt.

(** [convert_all_posts], by recursion on what the file system reports
    for [path]. *)
Fixpoint convert_all_posts (path : string) (node : fstree)
    (knowledge_repo_path : string) (inplace : bool) {struct node} : IO unit :=
  match node with
  | FsDir entries =>
      (fix each (entries : list (string * fstree)) : IO unit :=
         match entries with
         | [] => mret tt
         | (f, child) :: rest =>
             convert_all_posts (os_path_join path [f]) child
                               knowledge_repo_path inplace;;
             each rest
         end) entries
  | FsFile =>
      if negb (contains CONVERTED path) then
        let '(head, ext) := os_path_splitext path in
        if String.eqb ext ".ipynb" then
          try_except
            (let converter := __init__ knowledge_repo_path inplace in
             r ← convert converter path;
             add r.1 r.2)
            (fun e =>
               print ("Skipping: " +:+ path);;
               print (str_exn e))
        else mret tt
      else mret tt
  end.

(** The [try] statement of the walk, for one notebook path. *)
Definition convert_post (knowledge_repo_path : string) (inplace : bool)
    (path : string) : IO unit :=
  try_except
    (r ← convert (__init__ knowledge_repo_path inplace) path;
     add r.1 r.2)
    (fun e => print ("Skipping: " +:+ path);; print (str_exn e)).

(** Running an action on each element of a list, in order. *)
Fixpoint for_each {A} (body : A → IO unit) (l : list A) : IO unit :=
  match l with
  | [] => mret tt
  | x :: l' => body x;; for_each body l'
  end.


(** ** The entry point *)

(** [os.path.abspath], which depends on the working directory. *)
Variable abspath : string → string.




(** ** Strings *)

Lemma append_nil_r (s : string) : s +:+ "" = s.
Proof. induction s; simpl; congruence. Qed.

Lemma append_assoc (a b c : string) : (a +:+ b) +:+ c = a +:+ b +:+ c.
Proof. induction a; simpl; congruence. Qed.

Lemma length_append (a b : string) :
  String.length (a +:+ b) = (String.length a + String.length b)%nat.
Proof. induction a; simpl; congruence. Qed.

Lemma str_take_drop (i : nat) (s : string) : str_take i s +:+ str_drop i s = s.
Proof.
  revert s. induction i as [|i IH]; intros [|c s]; simpl; try done.
  by rewrite IH.
Qed.

Lemma str_drop_append (a b : string) : str_drop (String.length a) (a +:+ b) = b.
Proof. induction a; simpl; [by destruct b|done]. Qed.

Lemma str_take_append (a b : string) : str_take (String.length a) (a +:+ b) = a.
Proof. induction a; simpl; [by destruct b|congruence]. Qed.

Lemma prefix_spec (p s : string) :
  String.prefix p s = true ↔ ∃ rest, s = p +:+ rest.
Proof.
  revert s. induction p as [|a p IH]; intros s.
  - split; [intros _; by exists s|intros _; by destruct s].
  - destruct s as [|b s]; simpl.
    + split; [done|]. by intros [rest ?].
    + destruct (ascii_dec a b) as [->|Hab].
      * rewrite IH. split; intros [rest E]; exists rest; congruence.
      * split; [done|]. intros [rest E]. congruence.
Qed.

Lemma prefix_append (p rest : string) : String.prefix p (p +:+ rest) = true.
Proof. apply prefix_spec. by exists rest. Qed.

Lemma has_char_append (c : ascii) (a b : string) :
  has_char c (a +:+ b) = has_char c a || has_char c b.
Proof.
  induction a as [|x a IH]; cbn [String.append has_char]; [done|].
  by rewrite IH, orb_assoc.
Qed.

(** ** Title extraction *)

Lemma until_newline_spec (s t : string) :
  until_newline s = Some t ↔
  (∃ rest, s = t +:+ nl +:+ rest) ∧ has_char newline t = false.
Proof.
  revert t. induction s as [|c s IH]; intros t; simpl.
  - split; [discriminate|]. intros [[rest E] _]. destruct t; discriminate.
  - destruct (Ascii.eqb_spec c newline) as [->|Hc].
    + split.
      * intros [= <-]. split; [by exists s|done].
      * intros [[rest E] Hn]. destruct t as [|a t]; [done|].
        simpl in E. injection E as <- _. simpl in Hn. done.
    + split.
      * destruct (until_newline s) as [t'|] eqn:Hu; [|discriminate].
        intros [= <-]. destruct (IH t') as [[[rest E] Hn] _]; [done|].
        split; [exists rest; simpl; by rewrite E|].
        simpl. by destruct (Ascii.eqb_spec c newline).
      * intros [[rest E] Hn]. destruct t as [|a t].
        { simpl in E. by injection E as -> _. }
        simpl in E. injection E as <- E. simpl in Hn.
        apply orb_false_iff in Hn as [_ Hn].
        rewrite (proj2 (IH t)); [done|]. split; [by exists rest|done].
Qed.

Lemma title_pattern_spec (line t : string) :
  title_pattern line = Some t ↔
  (∃ rest, line = "# " +:+ t +:+ nl +:+ rest) ∧ has_char newline t = false.
Proof.
  unfold title_pattern. split.
  - destruct (String.prefix "# " line) eqn:Hp; [|done].
    apply prefix_spec in Hp as [r ->]. change (str_drop 2 ("# " +:+ r)) with r.
    intros [[rest ->] Hn]%until_newline_spec. split; [by exists rest|done].
  - intros [[rest ->] Hn]. rewrite prefix_append. simpl.
    apply until_newline_spec. split; [by exists rest|done].
Qed.

Lemma _title_loop_other (cell : json) (cells : list json) (title : option string) :
  other_cell cell → _title_loop (cell :: cells) title = _title_loop cells title.
Proof. intros (d & ty & -> & Hty & Hne). simpl. rewrite Hty. simpl. by rewrite Hne. Qed.

Lemma _title_loop_markdown (cell : json) (line : string) (cells : list json)
    (title : option string) :
  markdown_cell cell line →
  _title_loop (cell :: cells) title =
    match title_pattern line with
    | Some t =>
        if negb (String.eqb t TABLE_OF_CONTENTS) then Ok (Some t)
        else _title_loop cells (Some t)
    | None => _title_loop cells title
    end.
Proof. intros (d & rest & -> & Hty & Hsrc). simpl. rewrite Hty. simpl. by rewrite Hsrc. Qed.

Lemma _title_loop_plain (cell : json) (cells : list json) (title : option string) :
  plain_cell cell → _title_loop (cell :: cells) title = _title_loop cells title.
Proof.
  intros [Ho|(line & Hm & Hp)]; [by apply _title_loop_other|].
  by rewrite (_title_loop_markdown _ _ _ _ Hm), Hp.
Qed.

Lemma _title_loop_toc (cell : json) (cells : list json) (title : option string) :
  heading_cell cell TABLE_OF_CONTENTS →
  _title_loop (cell :: cells) title = _title_loop cells (Some TABLE_OF_CONTENTS).
Proof. intros (line & Hm & Hp). by rewrite (_title_loop_markdown _ _ _ _ Hm), Hp. Qed.

Lemma _title_loop_heading (cell : json) (t : string) (cells : list json)
    (title : option string) :
  heading_cell cell t → t ≠ TABLE_OF_CONTENTS →
  _title_loop (cell :: cells) title = Ok (Some t).
Proof.
  intros (line & Hm & Hp) Hne. rewrite (_title_loop_markdown _ _ _ _ Hm), Hp.
  by apply String.eqb_neq in Hne as ->.
Qed.

(** Cells that do not end the scan leave [title] as it was or bound to
    the table-of-contents header. *)
Lemma _title_loop_passed (cells rest : list json) (title : option string) :
  Forall passed_cell cells →
  ∃ title', _title_loop (cells ++ rest) title = _title_loop rest title'
            ∧ (title' = title ∨ title' = Some TABLE_OF_CONTENTS).
Proof.
  intros Hall. revert title. induction Hall as [|cell cells Hc _ IH]; intros title.
  - exists title. by split; [|left].
  - destruct Hc as [Hp|Ht]; simpl app.
    + rewrite _title_loop_plain by done. apply IH.
    + rewrite _title_loop_toc by done.
      destruct (IH (Some TABLE_OF_CONTENTS)) as (title' & -> & Ht').
      exists title'. split; [done|]. right. by destruct Ht'.
Qed.

Lemma _title_loop_passed_toc (cells rest : list json) :
  Forall passed_cell cells →
  _title_loop (cells ++ rest) (Some TABLE_OF_CONTENTS)
  = _title_loop rest (Some TABLE_OF_CONTENTS).
Proof.
  intros Hall.
  destruct (_title_loop_passed cells rest (Some TABLE_OF_CONTENTS) Hall)
    as (title' & -> & Ht').
  by destruct Ht' as [->| ->].
Qed.

Lemma _title_loop_plain_all (cells rest : list json) (title : option string) :
  Forall plain_cell cells →
  _title_loop (cells ++ rest) title = _title_loop rest title.
Proof.
  induction 1 as [|cell cells Hc _ IH]; [done|].
  simpl app. by rewrite _title_loop_plain.
Qed.

Lemma _title_cells (d : dict) (cells : list json) :
  dict_get "cells" d = Some (JArr cells) →
  _title (JObj d) =
    title ← _title_loop cells None;
    match title with
    | Some title => Ok title
    | None => Raise (UnboundLocalError "title")
    end.
Proof. intros H. unfold _title. simpl. by rewrite H. Qed.

(** C2.  The scan goes through the cells in order, passes over the cells
    that are not markdown cells whatever they hold, looks at the first
    source line of a markdown cell only, passes over a line that is not
    a level 1 header or whose header text is the table of contents, and
    returns the text of the first other header.  In particular, when the
    first markdown cell starts with the table-of-contents header and the
    second with the header Real Title, the title is Real Title. *)
Theorem title_first_heading :
  (∀ (d : dict) (before after : list json) (cell : json) (t : string),
      dict_get "cells" d = Some (JArr (before ++ cell :: after)) →
      Forall passed_cell before →
      heading_cell cell t →
      t ≠ TABLE_OF_CONTENTS →
      _title (JObj d) = Ok t)
  ∧
  (∀ (d : dict) (cells1 cells2 after : list json) (toc real : json),
      dict_get "cells" d
      = Some (JArr (cells1 ++ toc :: cells2 ++ real :: after)) →
      Forall other_cell cells1 →
      markdown_cell toc ("# Table of Contents" +:+ nl) →
      Forall other_cell cells2 →
      markdown_cell real ("# Real Title" +:+ nl) →
      _title (JObj d) = Ok "Real Title").
Proof.
  assert (∀ (d : dict) (before after : list json) (cell : json) (t : string),
      dict_get "cells" d = Some (JArr (before ++ cell :: after)) →
      Forall passed_cell before →
      heading_cell cell t →
      t ≠ TABLE_OF_CONTENTS →
      _title (JObj d) = Ok t) as General.
  { intros d before after cell t Hcells Hbefore Hcell Ht.
    rewrite (_title_cells _ _ Hcells).
    destruct (_title_loop_passed before (cell :: after) None Hbefore)
      as (title' & -> & _).
    by rewrite (_title_loop_heading _ _ _ _ Hcell Ht). }
  split; [exact General|].
  intros d cells1 cells2 after toc real Hcells H1 Htoc H2 Hreal.
  apply (General d (cells1 ++ toc :: cells2)%list after real).
  - by rewrite <- app_assoc.
  - apply Forall_app. split.
    + eapply Forall_impl; [exact H1|]. intros c Hc. left. by left.
    + constructor.
      * right. by exists ("# Table of Contents" +:+ nl).
      * eapply Forall_impl; [exact H2|]. intros c Hc. left. by left.
  - by exists ("# Real Title" +:+ nl).
  - done.
Qed.

(** C9, as the code has it.  When a markdown cell starts with the
    table-of-contents header and no markdown cell of the notebook,
    before it or after it, starts with another level 1 header, the title
    is the text Table of Contents: the match that was passed over is
    the result. *)
Theorem title_table_of_contents_kept (d : dict) (before after : list json)
    (toc : json) :
  dict_get "cells" d = Some (JArr (before ++ toc :: after)) →
  Forall passed_cell before →
  heading_cell toc TABLE_OF_CONTENTS →
  Forall passed_cell after →
  _title (JObj d) = Ok TABLE_OF_CONTENTS.
Proof.
  intros Hcells Hbefore Htoc Hafter. rewrite (_title_cells _ _ Hcells).
  destruct (_title_loop_passed before (toc :: after) None Hbefore)
    as (title' & -> & _).
  rewrite (_title_loop_toc _ _ _ Htoc).
  rewrite <- (app_nil_r after), (_title_loop_passed_toc _ _ Hafter).
  done.
Qed.

Lemma markdown_cell_markdown (line : string) : markdown_cell (markdown line) line.
Proof. by exists [("cell_type", JStr "markdown"); ("metadata", JObj []);
                  ("source", JArr [JStr line])], []. Qed.

Lemma other_cell_code (line : string) : other_cell (code line).
Proof.
  by exists [("cell_type", JStr "code"); ("execution_count", JNull);
             ("metadata", JObj []); ("outputs", JArr []);
             ("source", JArr [JStr line])], (JStr "code").
Qed.

(** C9, as it is stated, fails on a notebook whose table-of-contents
    cell comes after the cell with the real header: no later cell has a
    header, and the title is still the real one. *)
Lemma title_table_of_contents_counterexample :
  let real := markdown ("# Real Title" +:+ nl) in
  let toc := markdown ("# Table of Contents" +:+ nl) in
  let after : list json := [] in
  heading_cell toc TABLE_OF_CONTENTS
  ∧ Forall passed_cell after
  ∧ _title (JObj [("cells", JArr ([real] ++ toc :: after))]) = Ok "Real Title"
  ∧ _title (JObj [("cells", JArr ([real] ++ toc :: after))])
    ≠ Ok TABLE_OF_CONTENTS.
Proof.
  intros real toc after. split; [|split; [|split]].
  - exists ("# Table of Contents" +:+ nl).
    split; [apply markdown_cell_markdown|reflexivity].
  - constructor.
  - reflexivity.
  - discriminate.
Qed.

(** Without a level 1 header in the first line of any markdown cell the
    local variable [title] is never bound, and [return title] raises. *)
Lemma _title_no_heading (d : dict) (cells : list json) :
  dict_get "cells" d = Some (JArr cells) →
  Forall plain_cell cells →
  _title (JObj d) = Raise (UnboundLocalError "title").
Proof.
  intros Hcells Hplain. rewrite (_title_cells _ _ Hcells).
  rewrite <- (app_nil_r cells), (_title_loop_plain_all _ _ _ Hplain). done.
Qed.

(** ** The metadata cell *)

(** C4.  The metadata cell is a raw cell with empty metadata.  Its
    source has ten lines: the delimiter, the eight lines of the fields
    title, authors with the one fixed author, tags with the one derived
    tag, created_at, updated_at and tldr, in that order, and the
    delimiter again.  Every line but the last ends with a line break. *)
Theorem header_is_ten_line_raw_cell (self : IpynbConverter)
    (title tags date_created date_updated : string) :
  title_ self = Some title →
  tags_ self = Some tags →
  date_created_ self = Some date_created →
  date_updated_ self = Some date_updated →
  ∃ lines : list string,
    _construct_header self
    = Ok (JObj [("cell_type", JStr "raw"); ("metadata", JObj []);
                ("source", JArr (map JStr lines))])
    ∧ lines = [ "---" +:+ nl;
                "title: " +:+ title +:+ nl;
                "authors:" +:+ nl;
                "- Ethen Liu" +:+ nl;
                "tags:" +:+ nl;
                "- " +:+ tags +:+ nl;
                "created_at: " +:+ date_created +:+ nl;
                "updated_at: " +:+ date_updated +:+ nl;
                "tldr: Nothing for tldr section as of now." +:+ nl;
                "---" ]
    ∧ length lines = 10%nat
    ∧ head lines = Some ("---" +:+ nl)
    ∧ last lines = Some "---"
    ∧ (∀ (i : nat) (line : string),
          (i < 9)%nat → lines !! i = Some line → ∃ text, line = text +:+ nl).
Proof.
  intros Ht Hg Hc Hu.
  exists [ "---" +:+ nl; "title: " +:+ title +:+ nl; "authors:" +:+ nl;
           "- Ethen Liu" +:+ nl; "tags:" +:+ nl; "- " +:+ tags +:+ nl;
           "created_at: " +:+ date_created +:+ nl;
           "updated_at: " +:+ date_updated +:+ nl;
           "tldr: Nothing for tldr section as of now." +:+ nl; "---" ].
  split; [|split; [reflexivity|]].
  - unfold _construct_header. rewrite Ht, Hg, Hc, Hu. reflexivity.
  - split; [done|]. split; [done|]. split; [done|].
    intros i line Hi Hl.
    destruct i as [|i]; [injection Hl as <-; exists "---"; reflexivity|].
    destruct i as [|i];
      [injection Hl as <-; exists ("title: " +:+ title); reflexivity|].
    destruct i as [|i]; [injection Hl as <-; exists "authors:"; reflexivity|].
    destruct i as [|i]; [injection Hl as <-; exists "- Ethen Liu"; reflexivity|].
    destruct i as [|i]; [injection Hl as <-; exists "tags:"; reflexivity|].
    destruct i as [|i];
      [injection Hl as <-; exists ("- " +:+ tags); reflexivity|].
    destruct i as [|i];
      [injection Hl as <-; exists ("created_at: " +:+ date_created);
       reflexivity|].
    destruct i as [|i];
      [injection Hl as <-; exists ("updated_at: " +:+ date_updated);
       reflexivity|].
    destruct i as [|i];
      [injection Hl as <-;
       exists "tldr: Nothing for tldr section as of now."; reflexivity|].
    exfalso. clear -Hi. lia.
Qed.

(** ** Splitting a path at the repository name *)

#[local] Arguments partition : simpl never.
#[local] Arguments occurrences : simpl never.
#[local] Arguments contains : simpl never.

Lemma partition_eq (sep s : string) :
  partition sep s =
    if String.prefix sep s
    then Some (EmptyString, str_drop (String.length sep) s)
    else match s with
         | EmptyString => None
         | String c s' =>
             match partition sep s' with
             | Some (a, b) => Some (String c a, b)
             | None => None
             end
         end.
Proof. by destruct s. Qed.

Lemma occurrences_eq (sub s : string) :
  occurrences sub s =
    ((if String.prefix sub s then 1 else 0) +
     match s with
     | EmptyString => 0
     | String _ s' => occurrences sub s'
     end)%nat.
Proof. by destruct s. Qed.

Lemma contains_eq (sub s : string) :
  contains sub s =
    String.prefix sub s ||
    match s with
    | EmptyString => false
    | String _ s' => contains sub s'
    end.
Proof. by destruct s. Qed.

Lemma prefix_drop (sep s : string) :
  String.prefix sep s = true → sep +:+ str_drop (String.length sep) s = s.
Proof. intros [rest ->]%prefix_spec. by rewrite str_drop_append. Qed.

Lemma partition_spec (sep s a b : string) :
  partition sep s = Some (a, b) → s = a +:+ sep +:+ b.
Proof.
  revert a. induction s as [|c s IH]; intros a; rewrite partition_eq.
  - destruct (String.prefix sep "") eqn:Hp; [|done].
    intros [= <- <-]. simpl. by rewrite prefix_drop.
  - destruct (String.prefix sep (String c s)) eqn:Hp.
    + intros [= <- <-]. simpl. by rewrite prefix_drop.
    + destruct (partition sep s) as [[a' b']|] eqn:Hs; [|done].
      intros [= <- <-]. simpl. f_equal. by apply IH.
Qed.

Lemma partition_None (sep s : string) :
  partition sep s = None ↔ occurrences sep s = 0%nat.
Proof.
  induction s as [|c s IH]; rewrite partition_eq, occurrences_eq.
  - by destruct (String.prefix sep "").
  - destruct (String.prefix sep (String c s)); [done|].
    simpl. rewrite <- IH. by destruct (partition sep s) as [[??]|].
Qed.

Lemma partition_occurrences (sep s a b : string) :
  partition sep s = Some (a, b) →
  occurrences sep s = occurrences sep (sep +:+ b).
Proof.
  revert a. induction s as [|c s IH]; intros a; rewrite partition_eq.
  - destruct (String.prefix sep "") eqn:Hp; [|done].
    intros [= <- <-]. by rewrite prefix_drop.
  - destruct (String.prefix sep (String c s)) eqn:Hp.
    + intros [= <- <-]. by rewrite prefix_drop.
    + destruct (partition sep s) as [[a' b']|] eqn:Hs; [|done].
      intros [= <- <-]. rewrite occurrences_eq, Hp. simpl. by eapply IH.
Qed.



(** The repository name starts with a character that it does not hold
    again, so two occurrences of it cannot overlap. *)
Lemma occurrences_REPO_NAME (b : string) :
  occurrences REPO_NAME (REPO_NAME +:+ b) = S (occurrences REPO_NAME b).
Proof.
  rewrite occurrences_eq, prefix_append. unfold REPO_NAME. simpl.
  by destruct b.
Qed.

Lemma split_upto_cons (n : nat) (sep s : string) :
  ∃ x l, split_upto n sep s = x :: l.
Proof.
  destruct n as [|n]; simpl; [by eexists _, _|].
  destruct (partition sep s) as [[a b]|]; by eexists _, _.
Qed.

(** What the unpacking in [_tags_and_github_link] sees. *)
Lemma py_split_REPO_NAME (path : string) :
  match partition REPO_NAME path with
  | None => py_split REPO_NAME path = [path]
  | Some (a, b) =>
      match partition REPO_NAME b with
      | None => py_split REPO_NAME path = [a; b]
      | Some _ => ∃ x y z l, py_split REPO_NAME path = x :: y :: z :: l
      end
  end.
Proof.
  unfold py_split.
  destruct (partition REPO_NAME path) as [[a b]|] eqn:Hp.
  - pose proof (partition_spec _ _ _ _ Hp) as E.
    apply (f_equal String.length) in E. rewrite !length_append in E.
    change (String.length REPO_NAME) with 16%nat in E.
    destruct (String.length path) as [|[|n]]; [lia|lia|].
    simpl. rewrite Hp.
    destruct (partition REPO_NAME b) as [[a' b']|]; [|done].
    destruct (split_upto_cons n REPO_NAME b') as (z & l & ->).
    by eexists _, _, _, _.
  - destruct (String.length path); simpl; by rewrite ?Hp.
Qed.

(** ** File names *)

Lemma rfind_spec (c : ascii) (s : string) :
  (rfind c s = (-1)%Z ∧ has_char c s = false)
  ∨ (∃ a b, s = a +:+ String c b
            ∧ has_char c b = false
            ∧ rfind c s = Z.of_nat (String.length a)).
Proof.
  induction s as [|x s IH]; [by left|]. simpl.
  destruct IH as [[-> Hn]|(a & b & -> & Hb & ->)].
  - simpl. destruct (Ascii.eqb_spec x c) as [->|Hx].
    + right. by exists "", s.
    + left. by rewrite Hn.
  - right. exists (String x a), b. split; [done|]. split; [done|].
    destruct (Z.leb_spec 0 (Z.of_nat (String.length a))); simpl; lia.
Qed.

(** The second component of [os.path.split]: what follows the last
    slash. *)
Lemma os_path_split_tail (p : string) :
  ∃ dir, p = dir +:+ (os_path_split p).2
         ∧ has_char "/" (os_path_split p).2 = false
         ∧ (dir = "" ∨ ∃ d, dir = d +:+ "/").
Proof.
  unfold os_path_split. cbn [snd].
  destruct (rfind_spec "/" p) as [[-> Hn]|(a & b & -> & Hb & ->)].
  - exists "". simpl. by split; [|split; [|left]].
  - exists (a +:+ "/").
    replace (Z.to_nat (Z.of_nat (String.length a) + 1))
      with (String.length (a +:+ "/")) by (rewrite length_append; simpl; lia).
    replace (a +:+ String "/" b) with ((a +:+ "/") +:+ b)
      by (by rewrite append_assoc).
    rewrite str_drop_append. split; [done|]. split; [done|].
    right. by exists a.
Qed.

(** [os.path.splitext] cuts before the last dot, or not at all. *)
Lemma os_path_splitext_spec (p : string) :
  p = (os_path_splitext p).1 +:+ (os_path_splitext p).2
  ∧ ((os_path_splitext p).2 = ""
     ∨ ∃ e, (os_path_splitext p).2 = String "." e ∧ has_char "." e = false).
Proof.
  unfold os_path_splitext.
  destruct (_ && _) eqn:Hc; cbn [fst snd].
  - split; [by rewrite str_take_drop|]. right.
    apply andb_true_iff in Hc as [Hlt _]. apply Z.ltb_lt in Hlt.
    destruct (rfind_spec "." p) as [[E _]|(a & b & -> & Hb & E)].
    + destruct (rfind_spec "/" p) as [[E' _]|(a' & b' & _ & _ & E')]; lia.
    + rewrite E, Nat2Z.id, str_drop_append. by exists b.
  - split; [by rewrite append_nil_r|by left].
Qed.

(** ** Tag and link *)






(** ** [convert] and [add] *)

(** [convert] reads the world and leaves it as it is. *)
Lemma convert_world (self : IpynbConverter) (path : string) (w w' : World)
    (r : result (IpynbConverter * json)) :
  convert self path w = (r, w') → w' = w.
Proof.
  unfold convert, mbind, IO_bind, lift, json_load, mret, IO_ret.
  intros H. repeat case_match; by simplify_eq.
Qed.

Lemma convert_split_raises (self : IpynbConverter) (path : string) (w : World)
    (e : exn) :
  _tags_and_github_link path = Raise e →
  ∃ e', convert self path w = (Raise e', w).
Proof.
  intros Hs. unfold convert, mbind, IO_bind, lift. rewrite Hs.
  repeat case_match; by eexists.
Qed.

Lemma dict_get_set (k : string) (v : json) (d : dict) :
  dict_get k (dict_set k v d) = Some v.
Proof.
  induction d as [|[k' v'] d IH]; simpl; [by rewrite String.eqb_refl|].
  destruct (String.eqb k k') eqn:E; simpl; by rewrite E.
Qed.

Lemma dict_get_set_ne (k k0 : string) (v : json) (d : dict) :
  k0 ≠ k → dict_get k0 (dict_set k v d) = dict_get k0 d.
Proof.
  intros Hne. induction d as [|[k' v'] d IH]; simpl.
  - by apply String.eqb_neq in Hne as ->.
  - destruct (String.eqb_spec k k') as [->|Hk]; simpl.
    + by apply String.eqb_neq in Hne as ->.
    + by rewrite IH.
Qed.

Lemma dict_keys_set (k : string) (v v0 : json) (d : dict) :
  dict_get k d = Some v0 → dict_keys (dict_set k v d) = dict_keys d.
Proof.
  induction d as [|[k' v'] d IH]; simpl; [done|].
  destruct (String.eqb k k'); simpl; [done|]. intros H. by rewrite IH.
Qed.

Lemma convert_ok (self : IpynbConverter) (path : string) (w : World)
    (d : dict) (cells : list json)
    (date_created date_updated tags link title : string) :
  _date_created path = Ok date_created →
  _date_updated path = Ok date_updated →
  _tags_and_github_link path = Ok (tags, link) →
  files w !! path = Some (JsonFile (JObj d)) →
  dict_get "cells" d = Some (JArr cells) →
  _title (JObj d) = Ok title →
  ∃ header link_cell,
    let self' := converted_self self date_created date_updated tags link
                                title (output_path (inplace self) path) in
    convert self path w
    = (Ok (self',
           JObj (dict_set "cells" (JArr (header :: link_cell :: cells)) d)),
       w)
    ∧ _construct_header self' = Ok header
    ∧ _construct_github_link_cell self' = Ok link_cell.
Proof.
  intros Hc Hu Ht Hf Hcells Htitle.
  eexists _, _. cbn zeta.
  unfold convert, mbind, IO_bind, lift, json_load.
  rewrite Hc, Hu, Ht, Hf, Htitle. cbn [fst snd].
  unfold _construct_header, _construct_github_link_cell, getitem, list_concat,
    setitem. cbn -[dict_set os_path_splitext]. rewrite Hcells.
  cbn -[dict_set os_path_splitext].
  unfold converted_self, output_path, CONVERTED.
  split; [|done].
  destruct (inplace self); cbn -[dict_set os_path_splitext]; [done|].
  destruct (os_path_splitext path) as [head ext].
  cbn -[dict_set]. by rewrite append_assoc.
Qed.

(** X18.  For a notebook document with a list of cells in which a title
    is found, read from [path], [convert] returns the document with the
    metadata cell and the link cell put before the cells it had, which
    keep their order; every other top-level field, and the order of the
    fields, is as it was.  The metadata cell holds the title, the tag and
    the two dates that were found, and the link cell is a markdown cell
    with the one line that gives the link.  The conversion gets that far
    once the dates and the tag and link have been found as well. *)
Theorem convert_prepends_header_and_link (self : IpynbConverter)
    (path : string) (w : World) (d : dict) (cells : list json)
    (date_created date_updated tags link title : string) :
  _date_created path = Ok date_created →
  _date_updated path = Ok date_updated →
  _tags_and_github_link path = Ok (tags, link) →
  files w !! path = Some (JsonFile (JObj d)) →
  dict_get "cells" d = Some (JArr cells) →
  _title (JObj d) = Ok title →
  ∃ (self' : IpynbConverter) (d' : dict) (header link_cell : json),
    convert self path w = (Ok (self', JObj d'), w)
    ∧ title_ self' = Some title
    ∧ tags_ self' = Some tags
    ∧ github_link_ self' = Some link
    ∧ date_created_ self' = Some date_created
    ∧ date_updated_ self' = Some date_updated
    ∧ header
      = JObj [("cell_type", JStr "raw"); ("metadata", JObj []);
              ("source",
               JArr (map JStr
                 [ "---" +:+ nl;
                   "title: " +:+ title +:+ nl;
                   "authors:" +:+ nl;
                   "- Ethen Liu" +:+ nl;
                   "tags:" +:+ nl;
                   "- " +:+ tags +:+ nl;
                   "created_at: " +:+ date_created +:+ nl;
                   "updated_at: " +:+ date_updated +:+ nl;
                   "tldr: Nothing for tldr section as of now." +:+ nl;
                   "---" ]))]
    ∧ link_cell
      = JObj [("cell_type", JStr "markdown"); ("metadata", JObj []);
              ("source",
               JArr [JStr ("Link to original notebook: " +:+ link)])]
    ∧ dict_get "cells" d' = Some (JArr ([header; link_cell] ++ cells))
    ∧ (∀ k, k ≠ "cells" → dict_get k d' = dict_get k d)
    ∧ dict_keys d' = dict_keys d.
Proof.
  intros Hc Hu Ht Hf Hcells Htitle.
  destruct (convert_ok self path w d cells _ _ _ _ _ Hc Hu Ht Hf Hcells Htitle)
    as (header & link_cell & Hconv & Hh & Hl).
  cbn zeta in *.
  assert (header
          = JObj [("cell_type", JStr "raw"); ("metadata", JObj []);
                  ("source",
                   JArr (map JStr
                     [ "---" +:+ nl;
                       "title: " +:+ title +:+ nl;
                       "authors:" +:+ nl;
                       "- Ethen Liu" +:+ nl;
                       "tags:" +:+ nl;
                       "- " +:+ tags +:+ nl;
                       "created_at: " +:+ date_created +:+ nl;
                       "updated_at: " +:+ date_updated +:+ nl;
                       "tldr: Nothing for tldr section as of now." +:+ nl;
                       "---" ]))]) as Hheader.
  { cbv in Hh. injection Hh as <-. reflexivity. }
  assert (link_cell
          = JObj [("cell_type", JStr "markdown"); ("metadata", JObj []);
                  ("source",
                   JArr [JStr ("Link to original notebook: " +:+ link)])])
    as Hlink.
  { cbv in Hl. injection Hl as <-. reflexivity. }
  eexists _, _, header, link_cell. split; [exact Hconv|].
  do 5 (split; [done|]). split; [exact Hheader|]. split; [exact Hlink|].
  split; [apply dict_get_set|].
  split; [intros k Hk; by apply dict_get_set_ne|].
  by eapply dict_keys_set.
Qed.

(** Once [convert] has set [_path] and [tags_], [add] goes through when
    the output file can be opened: it writes the notebook, starts the
    child process and, unless the conversion is in place, removes what it
    wrote. *)
Lemma add_ok (self : IpynbConverter) (notebook : json) (w : World)
    (out tags : string) :
  _path self = Some out →
  tags_ self = Some tags →
  open_w out = Ok tt →
  add self notebook w =
    (Ok tt,
     {| files := if inplace self then <[out := JsonFile notebook]> (files w)
                 else delete out (files w);
        stdout := stdout w;
        processes :=
          processes w ++
          [registration (knowledge_repo_path self) out tags
             (wait (add_cmd (knowledge_repo_path self) out tags)
                   COMMIT_MESSAGE)] |}).
Proof.
  intros Hp Ht Hw.
  unfold add, mbind, IO_bind, lift, json_dump, Popen_communicate.
  rewrite Hp. cbn [attr]. rewrite Hw, Ht. cbn [attr files stdout processes].
  destruct (inplace self); cbn [negb]; [done|].
  unfold os_remove. cbn [files stdout processes].
  by rewrite lookup_insert_eq, delete_insert_eq.
Qed.

(** When the output file cannot be opened, [add] raises at once: no
    file is written, no child process is started. *)
Lemma add_write_fails (self : IpynbConverter) (notebook : json) (w : World)
    (out : string) (e : exn) :
  _path self = Some out →
  open_w out = Raise e →
  add self notebook w = (Raise e, w).
Proof.
  intros Hp Hw. unfold add, mbind, IO_bind, lift, json_dump.
  rewrite Hp. cbn [attr]. by rewrite Hw.
Qed.

(** An [add] that completed did open its output file. *)
Lemma add_Ok_inv (self : IpynbConverter) (notebook : json) (w w' : World)
    (out : string) :
  _path self = Some out →
  add self notebook w = (Ok tt, w') →
  open_w out = Ok tt.
Proof.
  intros Hp H. destruct (open_w out) as [[]|e] eqn:Hw; [done|].
  by rewrite (add_write_fails _ _ _ _ _ Hp Hw) in H.
Qed.

(** C7.  With the in-place toggle off, [convert] keeps as output path
    the input path with the converted marker put before its extension.
    [add] then completes exactly when that file can be opened for writing,
    and after an [add] that completed no file is left at that path,
    whatever status the child process exits with; every other file is as
    it was.  With the toggle on, the output path is the input path, and an
    [add] that completed has overwritten the file there and has neither
    created nor removed any other file.  When the file cannot be opened,
    [add] raises and has done nothing. *)
Theorem output_path_and_cleanup :
  (∀ (self self' : IpynbConverter) (path : string) (w w' : World)
     (notebook : json),
      convert self path w = (Ok (self', notebook), w') →
      inplace self' = inplace self
      ∧ tags_ self' ≠ None
      ∧ if inplace self then _path self' = Some path
        else ∃ head ext,
               os_path_splitext path = (head, ext)
               ∧ path = head +:+ ext
               ∧ _path self' = Some (head +:+ "-converted" +:+ ext))
  ∧
  (∀ (self : IpynbConverter) (notebook : json) (w : World) (out tags : string),
      inplace self = false →
      _path self = Some out →
      tags_ self = Some tags →
      (∀ w', add self notebook w = (Ok tt, w') →
             files w' !! out = None
             ∧ files w' = delete out (files w)
             ∧ ∃ status,
                 processes w'
                 = (processes w ++
                    [registration (knowledge_repo_path self) out tags
                                  status])%list)
      ∧ (open_w out = Ok tt → ∃ w', add self notebook w = (Ok tt, w'))
      ∧ (∀ e, open_w out = Raise e → add self notebook w = (Raise e, w)))
  ∧
  (∀ (self : IpynbConverter) (notebook : json) (w : World) (out tags : string),
      inplace self = true →
      _path self = Some out →
      tags_ self = Some tags →
      (∀ w', add self notebook w = (Ok tt, w') →
             files w' = <[out := JsonFile notebook]> (files w))
      ∧ (open_w out = Ok tt → ∃ w', add self notebook w = (Ok tt, w'))
      ∧ (∀ e, open_w out = Raise e → add self notebook w = (Raise e, w))).
Proof.
  split; [|split].
  - intros self self' path w w' notebook H.
    unfold convert, mbind, IO_bind, lift, json_load, mret, IO_ret in H.
    cbn [inplace set_title set_tags_and_github_link set_date_updated
         set_date_created] in H.
    pose proof (os_path_splitext_spec path) as [E _].
    destruct (os_path_splitext path) as [head ext] eqn:Hs. cbn [fst snd] in E.
    destruct (inplace self) eqn:Hi; cbn [negb] in H;
      repeat case_match; simplify_eq; cbn; rewrite Hi.
    + done.
    + split; [done|]. split; [done|]. exists head, ext.
      split; [done|]. split; [done|]. by rewrite append_assoc.
  - intros self notebook w out tags Hi Hp Ht. split; [|split].
    + intros w' H. pose proof (add_Ok_inv _ _ _ _ _ Hp H) as Hw.
      rewrite (add_ok _ notebook w _ _ Hp Ht Hw), Hi in H.
      injection H as <-. cbn [files processes].
      split; [apply lookup_delete_eq|]. split; [done|]. by eexists.
    + intros Hw. eexists. by apply (add_ok _ _ _ out tags).
    + intros e Hw. by apply (add_write_fails _ _ _ out).
  - intros self notebook w out tags Hi Hp Ht. split; [|split].
    + intros w' H. pose proof (add_Ok_inv _ _ _ _ _ Hp H) as Hw.
      rewrite (add_ok _ notebook w _ _ Hp Ht Hw), Hi in H.
      by injection H as <-.
    + intros Hw. eexists. by apply (add_ok _ _ _ out tags).
    + intros e Hw. by apply (add_write_fails _ _ _ out).
Qed.

(** ** The walk *)

Lemma fstree_forall_ind (P : fstree → Prop) :
  P FsFile →
  (∀ entries, Forall (λ entry, P entry.2) entries → P (FsDir entries)) →
  ∀ node, P node.
Proof.
  intros Hfile Hdir. fix IH 1. intros [|entries]; [exact Hfile|].
  apply Hdir. induction entries as [|[f child] rest IHrest]; constructor.
  - apply IH.
  - exact IHrest.
Qed.

Lemma convert_all_posts_file (path knowledge_repo_path : string)
    (inplace : bool) (w : World) :
  convert_all_posts path FsFile knowledge_repo_path inplace w =
    if eligible path then convert_post knowledge_repo_path inplace path w
    else (Ok tt, w).
Proof.
  unfold eligible. cbn [convert_all_posts].
  destruct (contains CONVERTED path); cbn [negb andb]; [done|].
  destruct (os_path_splitext path) as [head ext]. cbn [snd].
  by destruct (String.eqb ext ".ipynb").
Qed.

(** The [try] statement always ends normally: with the world the
    conversion made, or with the world the failed conversion left and two
    lines on the console. *)
Lemma convert_post_cases (knowledge_repo_path : string) (inplace : bool)
    (path : string) (w : World) :
  (∃ w', (r ← convert (__init__ knowledge_repo_path inplace) path;
          add r.1 r.2) w = (Ok tt, w')
         ∧ convert_post knowledge_repo_path inplace path w = (Ok tt, w'))
  ∨ (∃ e w', (r ← convert (__init__ knowledge_repo_path inplace) path;
              add r.1 r.2) w = (Raise e, w')
             ∧ convert_post knowledge_repo_path inplace path w
               = (Ok tt, with_skip_lines path (str_exn e) w')).
Proof.
  unfold convert_post, try_except.
  destruct ((r ← convert (__init__ knowledge_repo_path inplace) path;
             add r.1 r.2) w) as [[[]|e] w'].
  - left. by exists w'.
  - right. by exists e, w'.
Qed.

Lemma for_each_app {A} (body : A → IO unit) (l1 l2 : list A) (w : World) :
  for_each body (l1 ++ l2) w = (for_each body l1;; for_each body l2) w.
Proof.
  revert w. induction l1 as [|x l1 IH]; intros w; [done|].
  cbn [app for_each]. unfold mbind, IO_bind in *.
  destruct (body x w) as [[u|e] w']; [|done]. apply IH.
Qed.

(** The walk is the [try] statement run on the eligible files below
    [path], one after the other. *)
Lemma convert_all_posts_for_each (path : string) (node : fstree)
    (knowledge_repo_path : string) (inplace : bool) (w : World) :
  convert_all_posts path node knowledge_repo_path inplace w
  = for_each (convert_post knowledge_repo_path inplace)
             (List.filter eligible (leaves path node)) w.
Proof.
  revert path w. induction node as [|entries IH] using fstree_forall_ind;
    intros path w.
  - rewrite convert_all_posts_file. cbn [leaves List.filter].
    destruct (eligible path); [|done]. cbn [for_each].
    unfold mbind, IO_bind, mret, IO_ret.
    by destruct (convert_post _ _ _ w) as [[[]|e] w'].
  - cbn [convert_all_posts leaves]. revert w.
    induction IH as [|[f child] rest Hchild _ IHrest]; intros w; [done|].
    rewrite List.filter_app, for_each_app. cbn [snd] in Hchild.
    unfold mbind, IO_bind in *. rewrite Hchild.
    destruct (for_each _ _ w) as [[u|e] w']; [|done]. apply IHrest.
Qed.

Lemma for_each_convert_post_ok (knowledge_repo_path : string) (inplace : bool)
    (paths : list string) (w : World) :
  (for_each (convert_post knowledge_repo_path inplace) paths w).1 = Ok tt.
Proof.
  revert w. induction paths as [|p paths IH]; intros w; [done|].
  cbn [for_each]. unfold mbind, IO_bind.
  destruct (convert_post_cases knowledge_repo_path inplace p w)
    as [(w' & _ & ->)|(e & w' & _ & ->)]; apply IH.
Qed.

Lemma filter_eligible (paths : list string) (p : string) :
  In p (List.filter eligible paths) →
  contains CONVERTED p = false ∧ (os_path_splitext p).2 = ".ipynb".
Proof.
  intros [_ He]%List.filter_In. unfold eligible in He.
  apply andb_true_iff in He as [Hc He].
  split; [by destruct (contains CONVERTED p)|by apply String.eqb_eq].
Qed.

(** C8.  A file whose path holds the converted marker is left alone,
    with or without the notebook extension, and so is a file without that
    extension: the walk does nothing at all for them.  The files that the
    walk hands to the converter are the files below the root that have no
    marker in their path and have the notebook extension, each once and
    in the order of the walk. *)
Theorem marked_files_are_never_converted :
  (∀ (path knowledge_repo_path : string) (inplace : bool) (w : World),
      contains CONVERTED path = true →
      convert_all_posts path FsFile knowledge_repo_path inplace w = (Ok tt, w))
  ∧
  (∀ (path knowledge_repo_path : string) (inplace : bool) (w : World),
      (os_path_splitext path).2 ≠ ".ipynb" →
      convert_all_posts path FsFile knowledge_repo_path inplace w = (Ok tt, w))
  ∧
  (∀ (path knowledge_repo_path : string) (inplace : bool) (w : World),
      contains CONVERTED path = false →
      (os_path_splitext path).2 = ".ipynb" →
      convert_all_posts path FsFile knowledge_repo_path inplace w
      = convert_post knowledge_repo_path inplace path w)
  ∧
  (∀ (path : string) (node : fstree) (knowledge_repo_path : string)
     (inplace : bool) (w : World),
      ∃ paths : list string,
        convert_all_posts path node knowledge_repo_path inplace w
        = for_each (convert_post knowledge_repo_path inplace) paths w
        ∧ paths = List.filter eligible (leaves path node)
        ∧ ∀ p, In p paths →
               contains CONVERTED p = false
               ∧ (os_path_splitext p).2 = ".ipynb").
Proof.
  split; [|split; [|split]].
  - intros path krp inplace w Hc. rewrite convert_all_posts_file.
    unfold eligible. by rewrite Hc.
  - intros path krp inplace w He. rewrite convert_all_posts_file.
    unfold eligible. apply String.eqb_neq in He as ->.
    by rewrite andb_false_r.
  - intros path krp inplace w Hc He. rewrite convert_all_posts_file.
    unfold eligible. by rewrite Hc, He.
  - intros path node krp inplace w. eexists. split; [|split; [reflexivity|]].
    + apply convert_all_posts_for_each.
    + apply filter_eligible.
Qed.

(** ** Failures of single files *)

Lemma tags_and_github_link_cases (path : string) :
  (occurrences REPO_NAME path = 1%nat
   ∧ ∃ tags link, _tags_and_github_link path = Ok (tags, link))
  ∨ (occurrences REPO_NAME path ≠ 1%nat
     ∧ _tags_and_github_link path = Raise ValueError).
Proof.
  pose proof (py_split_REPO_NAME path) as Hs. unfold _tags_and_github_link.
  destruct (partition REPO_NAME path) as [[a b]|] eqn:Hp.
  - pose proof (partition_occurrences _ _ _ _ Hp) as Hocc.
    rewrite occurrences_REPO_NAME in Hocc.
    destruct (partition REPO_NAME b) as [[a' b']|] eqn:Hb.
    + right. split.
      * assert (occurrences REPO_NAME b ≠ 0%nat); [|lia].
        intros H0%partition_None. congruence.
      * by destruct Hs as (x & y & z & l & ->).
    + left. apply partition_None in Hb. split; [lia|].
      rewrite Hs. destruct (os_path_split b) as [? file_name].
      destruct (os_path_splitext file_name) as [tags ?]. by eexists _, _.
  - right. apply partition_None in Hp. split; [lia|]. by rewrite Hs.
Qed.

Lemma convert_post_raise (knowledge_repo_path : string) (inplace : bool)
    (path : string) (w w' : World) (e : exn) :
  convert (__init__ knowledge_repo_path inplace) path w = (Raise e, w') →
  convert_post knowledge_repo_path inplace path w
  = (Ok tt, with_skip_lines path (str_exn e) w').
Proof.
  intros H. unfold convert_post, try_except, mbind at 1, IO_bind. by rewrite H.
Qed.

(** C10.  The tag and the link are found when the repository name
    occurs once in the path, and only then.  With no occurrence, or with
    more than one, the unpacking of the split path raises: the conversion
    of the file stops there without a notebook, and the walk reports the
    file as skipped and goes on. *)
Theorem tags_and_github_link_needs_one_anchor (path : string) :
  (occurrences REPO_NAME path = 1%nat →
   ∃ tags link, _tags_and_github_link path = Ok (tags, link))
  ∧
  (occurrences REPO_NAME path ≠ 1%nat →
   _tags_and_github_link path = Raise ValueError
   ∧ (∀ (self : IpynbConverter) (w : World),
         ∃ e, convert self path w = (Raise e, w))
   ∧ (∀ (knowledge_repo_path : string) (inplace : bool) (w : World),
         eligible path = true →
         ∃ e, convert_all_posts path FsFile knowledge_repo_path inplace w
              = (Ok tt, with_skip_lines path (str_exn e) w))).
Proof.
  destruct (tags_and_github_link_cases path) as [[Hocc Hok]|[Hocc Hraise]].
  - split; [done|]. by intros ?.
  - split; [by intros ?|]. intros _. split; [done|]. split.
    + intros self w. by eapply convert_split_raises.
    + intros krp inplace w He. rewrite convert_all_posts_file, He.
      destruct (convert_split_raises (__init__ krp inplace) path w _ Hraise)
        as [e He'].
      exists e. by apply convert_post_raise.
Qed.

Lemma contains_append (sub a b : string) : contains sub (a +:+ sub +:+ b) = true.
Proof.
  induction a as [|c a IH]; rewrite contains_eq.
  - cbn [String.append]. by rewrite prefix_append.
  - cbn [String.append]. rewrite IH. apply orb_true_r.
Qed.

Lemma convert_malformed (self : IpynbConverter) (path text : string) (w : World) :
  files w !! path = Some (TextFile text) →
  ∃ e, convert self path w = (Raise e, w).
Proof.
  intros Hf. unfold convert, mbind, IO_bind, lift, json_load. rewrite Hf.
  repeat case_match; by eexists.
Qed.

(** A notebook that converts is registered once; the files that the walk
    may still visit are as they were. *)
Lemma convert_post_good (knowledge_repo_path : string) (inplace : bool)
    (path : string) (w : World) (d : dict) (cells : list json)
    (date_created date_updated tags link title : string) :
  _date_created path = Ok date_created →
  _date_updated path = Ok date_updated →
  _tags_and_github_link path = Ok (tags, link) →
  files w !! path = Some (JsonFile (JObj d)) →
  dict_get "cells" d = Some (JArr cells) →
  _title (JObj d) = Ok title →
  open_w (output_path inplace path) = Ok tt →
  ∃ w' status,
    convert_post knowledge_repo_path inplace path w = (Ok tt, w')
    ∧ stdout w' = stdout w
    ∧ processes w'
      = (processes w ++
         [registration knowledge_repo_path (output_path inplace path) tags
                       status])%list
    ∧ ∀ q, q ≠ path → contains CONVERTED q = false →
           files w' !! q = files w !! q.
Proof.
  intros Hc Hu Ht Hf Hcells Htitle Hw.
  destruct (convert_ok (__init__ knowledge_repo_path inplace) path w d cells
              _ _ _ _ _ Hc Hu Ht Hf Hcells Htitle)
    as (header & link_cell & Hconv & _ & _).
  cbn zeta in Hconv.
  change (output_path _ path) with (output_path inplace path) in Hconv.
  eexists _, _. split.
  - unfold convert_post, try_except, mbind at 1, IO_bind. rewrite Hconv.
    cbn [fst snd]. by erewrite add_ok.
  - cbn. split; [done|]. split; [done|]. intros q Hq Hm.
    destruct inplace.
    + by rewrite lookup_insert_ne.
    + rewrite lookup_delete_ne; [done|]. intros <-.
      unfold output_path in Hm. by rewrite contains_append in Hm.
Qed.

Lemma convert_post_malformed (knowledge_repo_path : string) (inplace : bool)
    (path text : string) (w : World) :
  files w !! path = Some (TextFile text) →
  ∃ e, convert_post knowledge_repo_path inplace path w
       = (Ok tt, with_skip_lines path (str_exn e) w).
Proof.
  intros Hf.
  destruct (convert_malformed (__init__ knowledge_repo_path inplace) _ _ _ Hf)
    as [e He].
  exists e. by apply convert_post_raise.
Qed.

(** X19.  The walk never ends with an exception.  When the conversion
    of a file raises, the walk prints that the file at that path is
    skipped, prints the exception, and goes on.  A directory with one
    notebook that cannot be parsed and one notebook that converts, in
    either order, gives one registration, for the notebook that converts,
    and one skip report, for the other.  A notebook converts when its
    dates, its tag and link and its title are found and its output file
    can be opened. *)
Theorem walk_survives_failing_notebooks :
  (∀ (path : string) (node : fstree) (knowledge_repo_path : string)
     (inplace : bool) (w : World),
      (convert_all_posts path node knowledge_repo_path inplace w).1 = Ok tt)
  ∧
  (∀ (path knowledge_repo_path : string) (inplace : bool) (w w' : World)
     (e : exn),
      eligible path = true →
      (r ← convert (__init__ knowledge_repo_path inplace) path;
       add r.1 r.2) w = (Raise e, w') →
      convert_all_posts path FsFile knowledge_repo_path inplace w
      = (Ok tt, with_skip_lines path (str_exn e) w'))
  ∧
  (∀ (dir f_bad f_good bad good knowledge_repo_path : string) (inplace : bool)
     (entries : list (string * fstree)) (w : World) (text : string)
     (d : dict) (cells : list json)
     (date_created date_updated tags link title : string),
      bad = os_path_join dir [f_bad] →
      good = os_path_join dir [f_good] →
      entries = [(f_bad, FsFile); (f_good, FsFile)]
      ∨ entries = [(f_good, FsFile); (f_bad, FsFile)] →
      eligible bad = true →
      eligible good = true →
      bad ≠ good →
      files w !! bad = Some (TextFile text) →
      _date_created good = Ok date_created →
      _date_updated good = Ok date_updated →
      _tags_and_github_link good = Ok (tags, link) →
      files w !! good = Some (JsonFile (JObj d)) →
      dict_get "cells" d = Some (JArr cells) →
      _title (JObj d) = Ok title →
      open_w (output_path inplace good) = Ok tt →
      ∃ (w' : World) (e : exn) (status : Z),
        convert_all_posts dir (FsDir entries) knowledge_repo_path inplace w
        = (Ok tt, w')
        ∧ processes w'
          = (processes w ++
             [registration knowledge_repo_path (output_path inplace good)
                           tags status])%list
        ∧ stdout w' = (stdout w ++ ["Skipping: " +:+ bad; str_exn e])%list).
Proof.
  split; [|split].
  - intros path node krp inplace w. rewrite convert_all_posts_for_each.
    apply for_each_convert_post_ok.
  - intros path krp inplace w w' e He Hbody.
    rewrite convert_all_posts_file, He. unfold convert_post, try_except.
    by rewrite Hbody.
  - intros dir f_bad f_good bad good krp inplace entries w text d cells
      date_created date_updated tags link title
      -> -> Hentries Hbad Hgood Hne Hfbad Hc Hu Ht Hfgood Hcells Htitle Hw.
    rewrite convert_all_posts_for_each.
    destruct Hentries as [-> | ->]; cbn [leaves app List.filter];
      rewrite Hbad, Hgood; cbn [for_each]; unfold mbind, IO_bind, mret, IO_ret.
    + destruct (convert_post_malformed krp inplace _ _ _ Hfbad) as [e ->].
      destruct (convert_post_good krp inplace _
                  (with_skip_lines (os_path_join dir [f_bad]) (str_exn e) w)
                  _ _ _ _ _ _ _ Hc Hu Ht Hfgood Hcells Htitle Hw)
        as (w' & status & -> & Hout & Hproc & _).
      exists w', e, status. split; [done|]. split; [done|].
      rewrite Hout. cbn [stdout with_skip_lines]. by rewrite <- app_assoc.
    + destruct (convert_post_good krp inplace _ w
                  _ _ _ _ _ _ _ Hc Hu Ht Hfgood Hcells Htitle Hw)
        as (w1 & status & -> & Hout & Hproc & Hfiles).
      assert (files w1 !! os_path_join dir [f_bad] = Some (TextFile text))
        as Hfbad1.
      { rewrite Hfiles; [done|done|].
        unfold eligible in Hbad. apply andb_true_iff in Hbad as [Hm _].
        by destruct (contains CONVERTED _). }
      destruct (convert_post_malformed krp inplace _ _ _ Hfbad1) as [e ->].
      exists (with_skip_lines (os_path_join dir [f_bad]) (str_exn e) w1),
        e, status.
      split; [done|]. split; [done|].
      cbn [stdout with_skip_lines]. by rewrite Hout, <- app_assoc.
Qed.

(** ** What [convert] needs and what it leaves *)

(** [convert] returns a notebook only when each of its steps went
    through, and then the result is the one of [convert_ok]. *)
Lemma convert_Ok_inv (self self' : IpynbConverter) (path : string)
    (w w' : World) (notebook : json) :
  convert self path w = (Ok (self', notebook), w') →
  ∃ (date_created date_updated tags link title : string) (d : dict)
    (cells : list json) (header link_cell : json),
    _date_created path = Ok date_created
    ∧ _date_updated path = Ok date_updated
    ∧ _tags_and_github_link path = Ok (tags, link)
    ∧ files w !! path = Some (JsonFile (JObj d))
    ∧ dict_get "cells" d = Some (JArr cells)
    ∧ _title (JObj d) = Ok title
    ∧ w' = w
    ∧ self' = converted_self self date_created date_updated tags link title
                (output_path (inplace self) path)
    ∧ notebook
      = JObj (dict_set "cells" (JArr (header :: link_cell :: cells)) d).
Proof.
  intros H.
  destruct (_date_created path) as [dc|] eqn:Hc;
    [|by unfold convert, mbind, IO_bind, lift in H; rewrite Hc in H].
  destruct (_date_updated path) as [du|] eqn:Hu;
    [|by unfold convert, mbind, IO_bind, lift in H; rewrite Hc, Hu in H].
  destruct (_tags_and_github_link path) as [[tags link]|] eqn:Ht;
    [|by unfold convert, mbind, IO_bind, lift in H; rewrite Hc, Hu, Ht in H].
  destruct (files w !! path) as [[nb|text]|] eqn:Hf;
    [|by unfold convert, mbind, IO_bind, lift, json_load in H;
         rewrite Hc, Hu, Ht, Hf in H..].
  destruct (_title nb) as [title|] eqn:Htitle;
    [|by unfold convert, mbind, IO_bind, lift, json_load in H;
         rewrite Hc, Hu, Ht, Hf, Htitle in H].
  assert (∃ d cells, nb = JObj d ∧ dict_get "cells" d = Some (JArr cells))
    as (d & cells & -> & Hcells).
  { unfold convert, mbind, IO_bind, lift, json_load in H.
    rewrite Hc, Hu, Ht, Hf, Htitle in H.
    destruct nb as [| | | | |items|d];
      try (unfold _title in Htitle; discriminate).
    exists d. unfold getitem, list_concat in H.
    destruct (dict_get "cells" d) as [[| | | | |cells|]|] eqn:Hcells;
      repeat case_match; simplify_eq; by exists cells. }
  destruct (convert_ok self path w d cells _ _ _ _ _ Hc Hu Ht Hf Hcells Htitle)
    as (header & link_cell & Hconv & _ & _).
  cbn zeta in Hconv. rewrite Hconv in H. injection H as <- <- <-.
  by exists dc, du, tags, link, title, d, cells, header, link_cell.
Qed.

(** X2.  [convert] returns a notebook exactly when the two dates are
    found, the repository name cuts the path in two, the file at the path
    holds a JSON object whose cells are a list, and a title is found. *)
Theorem convert_succeeds_iff (self : IpynbConverter) (path : string) (w : World) :
  (∃ r, convert self path w = (Ok r, w))
  ↔ (∃ (date_created date_updated tags link title : string) (d : dict)
       (cells : list json),
        _date_created path = Ok date_created
        ∧ _date_updated path = Ok date_updated
        ∧ _tags_and_github_link path = Ok (tags, link)
        ∧ files w !! path = Some (JsonFile (JObj d))
        ∧ dict_get "cells" d = Some (JArr cells)
        ∧ _title (JObj d) = Ok title).
Proof.
  split.
  - intros [[self' notebook] H].
    destruct (convert_Ok_inv _ _ _ _ _ _ H)
      as (dc & du & tags & link & title & d & cells & _ & _
          & Hc & Hu & Ht & Hf & Hcells & Htitle & _).
    by exists dc, du, tags, link, title, d, cells.
  - intros (dc & du & tags & link & title & d & cells
            & Hc & Hu & Ht & Hf & Hcells & Htitle).
    destruct (convert_ok self path w d cells _ _ _ _ _ Hc Hu Ht Hf Hcells Htitle)
      as (header & link_cell & Hconv & _ & _).
    eexists. exact Hconv.
Qed.

(** X3.  A copy written by a conversion that is not in place is never
    converted itself: its path holds the converted marker, so the walk
    passes over it and leaves the world as it is. *)
Theorem converted_copy_is_skipped (self self' : IpynbConverter) (path : string)
    (w w' : World) (notebook : json) :
  inplace self = false →
  convert self path w = (Ok (self', notebook), w') →
  ∃ out, _path self' = Some out
         ∧ contains CONVERTED out = true
         ∧ eligible out = false
         ∧ ∀ (knowledge_repo_path : string) (inplace : bool) (w0 : World),
             convert_all_posts out FsFile knowledge_repo_path inplace w0
             = (Ok tt, w0).
Proof.
  intros Hi H.
  destruct (convert_Ok_inv _ _ _ _ _ _ H)
    as (dc & du & tags & link & title & d & cells & header & link_cell
        & _ & _ & _ & _ & _ & _ & _ & -> & _).
  rewrite Hi. exists (output_path false path).
  assert (contains CONVERTED (output_path false path) = true) as Hm
    by apply contains_append.
  split; [done|]. split; [done|]. split.
  - unfold eligible. by rewrite Hm.
  - intros krp ip w0. rewrite convert_all_posts_file. unfold eligible.
    by rewrite Hm.
Qed.

(** ** More on the title *)

(** One round of the loop in [_title], read backwards: if the loop ends
    normally from [cell :: cells], the cell was passed over, or it set
    [title] to its header text. *)
Lemma _title_loop_step (cell : json) (cells : list json)
    (title r : option string) :
  _title_loop (cell :: cells) title = Ok r →
  _title_loop cells title = Ok r
  ∨ ∃ t, heading_cell cell t
         ∧ (r = Some t ∨ _title_loop cells (Some t) = Ok r).
Proof.
  cbn [_title_loop]. unfold mbind, result_bind, getitem, getitem0, re_match.
  intros H.
  destruct cell as [| | | | | |d]; try discriminate.
  destruct (dict_get "cell_type" d) as [ty|] eqn:Hty; [|discriminate].
  destruct (eq_str ty "markdown") eqn:Hmd; [|by left].
  destruct ty as [| | | |ty| |]; try discriminate.
  apply String.eqb_eq in Hmd as ->.
  destruct (dict_get "source" d) as [src|] eqn:Hsrc; [|discriminate].
  destruct src as [| | | |s|[|[| | | |line| |] rest]|]; try discriminate.
  - destruct s as [|c s]; [discriminate|].
    replace (title_pattern (String c "")) with (@None string) in H; [by left|].
    unfold title_pattern. destruct c as [[] [] [] [] [] [] [] []]; reflexivity.
  - destruct (title_pattern line) as [t|] eqn:Hp; [|by left].
    right. exists t. split; [by exists line; split; [exists d, rest|]|].
    destruct (negb (String.eqb t TABLE_OF_CONTENTS)); [left; congruence|by right].
Qed.

Lemma _title_loop_sound (cells : list json) (title : option string) (t : string) :
  _title_loop cells title = Ok (Some t) →
  title = Some t ∨ ∃ cell, In cell cells ∧ heading_cell cell t.
Proof.
  revert title. induction cells as [|cell cells IH]; intros title H.
  - left. cbn in H. congruence.
  - destruct (_title_loop_step _ _ _ _ H) as [H'|(t' & Hcell & [E|H'])].
    + destruct (IH _ H') as [->|(c & Hin & Hc)]; [by left|].
      right. exists c. split; [by right|done].
    + injection E as <-. right. exists cell. split; [by left|done].
    + destruct (IH _ H') as [E|(c & Hin & Hc)].
      * injection E as <-. right. exists cell. split; [by left|done].
      * right. exists c. split; [by right|done].
Qed.

(** X4.  A title that [_title] returns is the header text of a markdown
    cell of the notebook: the notebook is an object whose cells are a
    list, one of the cells is a markdown cell whose first source line is a
    hash sign, a space, the title and a line break, and the title holds no
    line break. *)
Theorem title_comes_from_a_markdown_header (notebook : json) (t : string) :
  _title notebook = Ok t →
  ∃ (d : dict) (cells : list json) (cell : json) (line rest : string),
    notebook = JObj d
    ∧ dict_get "cells" d = Some (JArr cells)
    ∧ In cell cells
    ∧ markdown_cell cell line
    ∧ line = "# " +:+ t +:+ nl +:+ rest
    ∧ has_char newline t = false.
Proof.
  unfold _title, mbind, result_bind, getitem. intros H.
  destruct notebook as [| | | | | |d]; try discriminate.
  destruct (dict_get "cells" d) as [cs|] eqn:Hcells; [|discriminate].
  assert (∀ items : list string,
             _title_loop (map JStr items) None = Ok None
             ∨ ∃ e, _title_loop (map JStr items) None = Raise e) as Hstr.
  { intros [|s items]; [by left|]. right. by eexists. }
  destruct cs as [| | | |s|cells|d']; try discriminate.
  - cbn [py_iter] in H.
    destruct (Hstr (chars s)) as [E|[e E]]; rewrite E in H; discriminate.
  - cbn [py_iter] in H.
    destruct (_title_loop cells None) as [[t'|]|] eqn:Hloop; try discriminate.
    injection H as ->.
    destruct (_title_loop_sound _ _ _ Hloop) as [?|(cell & Hin & line & Hm & Hp)];
      [discriminate|].
    apply title_pattern_spec in Hp as [[rest ->] Hn].
    by exists d, cells, cell, ("# " +:+ t +:+ nl +:+ rest), rest.
  - cbn [py_iter] in H.
    destruct (Hstr (dict_keys d')) as [E|[e E]]; rewrite E in H; discriminate.
Qed.

(** The two cells that [convert] prepends are passed over by the scan
    for the title: the first is a raw cell, the second a markdown cell
    whose only line starts with the word Link. *)
Lemma _title_loop_prepended (self : IpynbConverter) (header link_cell : json)
    (cells : list json) (title : option string) :
  _construct_header self = Ok header →
  _construct_github_link_cell self = Ok link_cell →
  _title_loop (header :: link_cell :: cells) title = _title_loop cells title.
Proof.
  intros Hh Hl.
  assert (other_cell header) as Ho.
  { unfold _construct_header, mbind, result_bind, attr in Hh.
    repeat case_match; simplify_eq.
    by eexists _, (JStr "raw"). }
  assert (plain_cell link_cell) as Hp.
  { unfold _construct_github_link_cell, mbind, result_bind, attr in Hl.
    repeat case_match; simplify_eq.
    right. eexists. split; [by eexists _, []|done]. }
  by rewrite (_title_loop_other _ _ _ Ho), (_title_loop_plain _ _ _ Hp).
Qed.

(** X5.  The cells that a conversion puts in front do not change the
    title: [_title] gives the same result, a title or an exception, on
    the converted notebook as on the one it was made from. *)
Theorem title_survives_conversion (self : IpynbConverter) (d : dict)
    (cells : list json) (header link_cell : json) :
  dict_get "cells" d = Some (JArr cells) →
  _construct_header self = Ok header →
  _construct_github_link_cell self = Ok link_cell →
  _title (JObj (dict_set "cells" (JArr (header :: link_cell :: cells)) d))
  = _title (JObj d).
Proof.
  intros Hcells Hh Hl.
  rewrite (_title_cells d cells Hcells).
  rewrite (_title_cells _ (header :: link_cell :: cells) (dict_get_set _ _ _)).
  by rewrite (_title_loop_prepended self).
Qed.



(** X7.  What [_title] raises on a notebook that is not as it
    expects.  A notebook without the key cells gives a [KeyError], and
    cells that are not a sequence a [TypeError].  When the scan, having
    passed over the cells before it, comes to a cell without a cell type,
    to a markdown cell without a source, or to a markdown cell whose
    source is the empty list, it raises [KeyError], [KeyError] and
    [IndexError]: an empty markdown cell ahead of the title stops the
    conversion. *)
Theorem title_raises_on_unexpected_cells :
  (∀ d : dict,
      dict_get "cells" d = None → _title (JObj d) = Raise (KeyError "cells"))
  ∧
  (∀ d : dict,
      dict_get "cells" d = Some JNull → _title (JObj d) = Raise TypeError)
  ∧
  (∀ (d c : dict) (before after : list json),
      dict_get "cells" d = Some (JArr (before ++ JObj c :: after)) →
      Forall passed_cell before →
      dict_get "cell_type" c = None →
      _title (JObj d) = Raise (KeyError "cell_type"))
  ∧
  (∀ (d c : dict) (before after : list json),
      dict_get "cells" d = Some (JArr (before ++ JObj c :: after)) →
      Forall passed_cell before →
      dict_get "cell_type" c = Some (JStr "markdown") →
      dict_get "source" c = None →
      _title (JObj d) = Raise (KeyError "source"))
  ∧
  (∀ (d c : dict) (before after : list json),
      dict_get "cells" d = Some (JArr (before ++ JObj c :: after)) →
      Forall passed_cell before →
      dict_get "cell_type" c = Some (JStr "markdown") →
      dict_get "source" c = Some (JArr []) →
      _title (JObj d) = Raise IndexError).
Proof.
  split; [|split; [|split; [|split]]].
  - intros d H. unfold _title, mbind, result_bind, getitem. by rewrite H.
  - intros d H. unfold _title, mbind, result_bind, getitem. by rewrite H.
  - intros d c before after Hcells Hbefore Hty.
    rewrite (_title_cells _ _ Hcells).
    destruct (_title_loop_passed before (JObj c :: after) None Hbefore)
      as (title' & -> & _).
    cbn [_title_loop]. unfold mbind, result_bind, getitem. by rewrite Hty.
  - intros d c before after Hcells Hbefore Hty Hsrc.
    rewrite (_title_cells _ _ Hcells).
    destruct (_title_loop_passed before (JObj c :: after) None Hbefore)
      as (title' & -> & _).
    cbn [_title_loop]. unfold mbind, result_bind, getitem.
    rewrite Hty. cbn [eq_str String.eqb]. by rewrite Hsrc.
  - intros d c before after Hcells Hbefore Hty Hsrc.
    rewrite (_title_cells _ _ Hcells).
    destruct (_title_loop_passed before (JObj c :: after) None Hbefore)
      as (title' & -> & _).
    cbn [_title_loop]. unfold mbind, result_bind, getitem.
    rewrite Hty. cbn [eq_str String.eqb]. by rewrite Hsrc.
Qed.

(** ** The header lines *)

Lemma flatten_list_fold (l : list (string + list string)) (flat : list string) :
  fold_left
    (fun flat item =>
       match item with
       | inr items => (flat ++ items)%list
       | inl item => (flat ++ [item])%list
       end)
    l flat
  = (flat ++ concat (map item_strings l))%list.
Proof.
  revert flat. induction l as [|item l IH]; intros flat; cbn [fold_left map concat].
  - by rewrite app_nil_r.
  - rewrite IH. destruct item; cbn [item_strings]; by rewrite <- app_assoc.
Qed.

(** X8.  [flatten_list] puts the strings of its items in one list, in
    order: an item that is a list gives its elements, any other item
    gives itself.  A list of strings comes back as it is, which is the
    case of the header text. *)
Theorem flatten_list_is_concatenation :
  (∀ l : list (string + list string),
      flatten_list l = concat (map item_strings l))
  ∧ (∀ l1 l2 : list (string + list string),
        flatten_list (l1 ++ l2) = (flatten_list l1 ++ flatten_list l2)%list)
  ∧ (∀ lines : list string, flatten_list (map inl lines) = lines)
  ∧ (∀ groups : list (list string), flatten_list (map inr groups) = concat groups).
Proof.
  assert (∀ l : list (string + list string),
             flatten_list l = concat (map item_strings l)) as Hflat.
  { intros l. unfold flatten_list. by rewrite flatten_list_fold. }
  split; [exact Hflat|]. split; [|split].
  - intros l1 l2. by rewrite !Hflat, map_app, concat_app.
  - intros lines. rewrite Hflat. induction lines as [|s lines IH]; [done|].
    cbn. by rewrite IH.
  - intros groups. rewrite Hflat. induction groups as [|g groups IH]; [done|].
    cbn. by rewrite IH.
Qed.

(** ** The order of failures in [convert] *)


(** ** What the walk does to the world *)

(** The two ways the [try] statement can end for a file: a report of
    two lines and nothing else, or one child process and the file written
    or removed by [add]. *)
Lemma convert_post_outcome (knowledge_repo_path : string) (inplace : bool)
    (path : string) (w : World) :
  ∃ w', convert_post knowledge_repo_path inplace path w = (Ok tt, w')
        ∧ ((∃ e, w' = with_skip_lines path (str_exn e) w)
           ∨ (∃ notebook tags status,
                 files w'
                 = (if inplace then <[path := JsonFile notebook]> (files w)
                    else delete (output_path false path) (files w))
                 ∧ stdout w' = stdout w
                 ∧ processes w'
                   = (processes w ++
                      [registration knowledge_repo_path
                         (output_path inplace path) tags status])%list)).
Proof.
  destruct (convert (__init__ knowledge_repo_path inplace) path w)
    as [[[self' notebook]|e] w0] eqn:H.
  - destruct (convert_Ok_inv _ _ _ _ _ _ H)
      as (dc & du & tags & link & title & d & cells & header & link_cell
          & _ & _ & _ & _ & _ & _ & -> & -> & _).
    change (output_path _ path) with (output_path inplace path) in H.
    destruct (open_w (output_path inplace path)) as [[]|e] eqn:Hw.
    + eexists. split.
      * unfold convert_post, try_except, mbind at 1, IO_bind. rewrite H.
        cbn [fst snd]. by erewrite add_ok.
      * right. exists notebook, tags. eexists. cbn.
        split; [by destruct inplace|done].
    + eexists. split.
      * unfold convert_post, try_except, mbind at 1, IO_bind. rewrite H.
        cbn [fst snd]. by erewrite add_write_fails.
      * left. by exists e.
  - pose proof (convert_world _ _ _ _ _ H) as ->.
    eexists. split; [by apply convert_post_raise|]. left. by exists e.
Qed.

Lemma for_each_convert_post_account (knowledge_repo_path : string)
    (inplace : bool) (paths : list string) (w : World) :
  ∃ (w' : World) (lines : list string) (started : list process)
    (n_ok n_skip : nat),
    for_each (convert_post knowledge_repo_path inplace) paths w = (Ok tt, w')
    ∧ stdout w' = (stdout w ++ lines)%list
    ∧ processes w' = (processes w ++ started)%list
    ∧ (n_ok + n_skip)%nat = length paths
    ∧ length started = n_ok
    ∧ length lines = (2 * n_skip)%nat.
Proof.
  revert w. induction paths as [|p paths IH]; intros w.
  - exists w, [], [], 0%nat, 0%nat. by rewrite !app_nil_r.
  - cbn [for_each]. unfold mbind, IO_bind.
    destruct (convert_post_outcome knowledge_repo_path inplace p w)
      as (w1 & -> & [[e ->]|(nb & tags & status & _ & Hout & Hproc)]).
    + destruct (IH (with_skip_lines p (str_exn e) w))
        as (w' & lines & started & n_ok & n_skip
            & -> & Hl & Hs & Hn & Hok & Hskip).
      exists w', (("Skipping: " +:+ p) :: str_exn e :: lines), started,
        n_ok, (S n_skip).
      split; [done|]. cbn [stdout processes with_skip_lines] in Hl, Hs.
      split; [by rewrite Hl, <- !app_assoc|]. split; [done|].
      cbn [length]. repeat split; lia.
    + destruct (IH w1)
        as (w' & lines & started & n_ok & n_skip
            & -> & Hl & Hs & Hn & Hok & Hskip).
      exists w', lines,
        (registration knowledge_repo_path (output_path inplace p) tags status
           :: started), (S n_ok), n_skip.
      split; [done|]. split; [by rewrite Hl, Hout|].
      split; [by rewrite Hs, Hproc, <- app_assoc|].
      cbn [length]. repeat split; lia.
Qed.

(** X10.  The walk accounts for every file it hands to the converter.
    It only adds to the console and to the list of child processes, and
    for the files below the root that are eligible it starts one child
    process for each one that converts and prints two lines for each one
    that does not. *)
Theorem walk_accounts_for_every_notebook (path : string) (node : fstree)
    (knowledge_repo_path : string) (inplace : bool) (w : World) :
  ∃ (w' : World) (lines : list string) (started : list process)
    (n_ok n_skip : nat),
    convert_all_posts path node knowledge_repo_path inplace w = (Ok tt, w')
    ∧ stdout w' = (stdout w ++ lines)%list
    ∧ processes w' = (processes w ++ started)%list
    ∧ (n_ok + n_skip)%nat = length (List.filter eligible (leaves path node))
    ∧ length started = n_ok
    ∧ length lines = (2 * n_skip)%nat.
Proof.
  rewrite convert_all_posts_for_each. apply for_each_convert_post_account.
Qed.




Lemma contains_append_l (sub a b : string) :
  contains sub a = true → contains sub (a +:+ b) = true.
Proof.
  induction a as [|c a IH]; rewrite contains_eq.
  - rewrite orb_false_r. intros [rest E]%prefix_spec.
    destruct sub; [|discriminate]. cbn [String.append].
    rewrite contains_eq. by destruct b.
  - intros [Hp|Hc]%orb_true_iff; cbn [String.append]; rewrite contains_eq.
    + apply prefix_spec in Hp as [rest E].
      replace (String.prefix sub (String c (a +:+ b))) with true; [done|].
      symmetry. apply prefix_spec. exists (rest +:+ b).
      change (String c (a +:+ b)) with (String c a +:+ b).
      by rewrite E, append_assoc.
    + rewrite (IH Hc). apply orb_true_r.
Qed.

Lemma os_path_join_plain (path f : string) :
  has_char "/" f = false →
  ∃ rest, os_path_join path [f] = path +:+ rest.
Proof.
  intros Hf. unfold os_path_join. cbn [fold_left].
  assert (String.prefix "/" f = false) as ->.
  { destruct (String.prefix "/" f) eqn:E; [|done].
    apply prefix_spec in E as [rest ->]. by cbn in Hf. }
  destruct (_ || _); by eexists.
Qed.

Lemma leaves_marked (path : string) (node : fstree) :
  contains CONVERTED path = true →
  plain_names node = true →
  Forall (λ p, contains CONVERTED p = true) (leaves path node).
Proof.
  revert path. induction node as [|entries IH] using fstree_forall_ind;
    intros path Hm Hn.
  - by constructor.
  - cbn [leaves plain_names] in *.
    induction IH as [|[f child] rest Hchild _ IHrest]; [constructor|].
    apply andb_true_iff in Hn as [[Hf Hc]%andb_true_iff Hrest].
    apply Forall_app. split; [|by apply IHrest].
    apply Hchild; [|done].
    destruct (os_path_join_plain path f) as [tail ->];
      [by destruct (has_char "/" f)|].
    by apply contains_append_l.
Qed.

(** X13.  A directory whose own path holds the converted marker hides
    everything below it: every path below it holds the marker too, so no
    file in it is converted, whatever its name, and the walk leaves the
    world as it is. *)
Theorem marked_directory_is_skipped_whole (path : string) (node : fstree)
    (knowledge_repo_path : string) (inplace : bool) (w : World) :
  contains CONVERTED path = true →
  plain_names node = true →
  Forall (λ p, contains CONVERTED p = true) (leaves path node)
  ∧ convert_all_posts path node knowledge_repo_path inplace w = (Ok tt, w).
Proof.
  intros Hm Hn. pose proof (leaves_marked path node Hm Hn) as Hall.
  split; [exact Hall|]. rewrite convert_all_posts_for_each.
  replace (List.filter eligible (leaves path node)) with (@nil string); [done|].
  symmetry. induction Hall as [|p l Hp _ IHl]; [done|].
  cbn [List.filter]. unfold eligible at 1. by rewrite Hp.
Qed.

(** ** Lines without a line break *)

(** X14.  The title pattern needs the line break.  A first line gives a
    title exactly when it is a hash sign, a space, the title without a
    line break in it, and a line break.  So a line without a line break
    gives none: a markdown cell whose whole source is the one line of a
    header, which ends without a line break, is passed over like a cell
    without a header. *)
Theorem title_pattern_needs_line_break :
  (∀ line t : string,
      title_pattern line = Some t ↔
      (∃ rest, line = "# " +:+ t +:+ nl +:+ rest) ∧ has_char newline t = false)
  ∧ (∀ line : string, has_char newline line = false → title_pattern line = None)
  ∧ (∀ text : string,
        has_char newline text = false → plain_cell (markdown ("# " +:+ text)))
  ∧ (∀ (d : dict) (cells : list json) (text : string),
        has_char newline text = false →
        dict_get "cells" d = Some (JArr (cells ++ [markdown ("# " +:+ text)])) →
        Forall plain_cell cells →
        _title (JObj d) = Raise (UnboundLocalError "title")).
Proof.
  assert (∀ line : string,
             has_char newline line = false → title_pattern line = None) as Hnone.
  { intros line Hn. destruct (title_pattern line) as [t|] eqn:Hp; [|done].
    apply title_pattern_spec in Hp as [[rest ->] _].
    rewrite !has_char_append in Hn. cbn in Hn.
    by rewrite orb_true_r in Hn. }
  assert (∀ text : string,
             has_char newline text = false →
             plain_cell (markdown ("# " +:+ text))) as Hplain.
  { intros text Hn. right. exists ("# " +:+ text).
    split; [apply markdown_cell_markdown|]. apply Hnone.
    by rewrite has_char_append, Hn. }
  split; [exact title_pattern_spec|]. split; [exact Hnone|].
  split; [exact Hplain|].
  intros d cells text Hn Hcells Hall.
  apply (_title_no_heading d _ Hcells).
  apply Forall_app. split; [done|]. constructor; [by apply Hplain|constructor].
Qed.

(** ** The path of the copy *)

Lemma rfind_bounds (c : ascii) (s : string) :
  rfind c s = (-1)%Z ∨ (0 ≤ rfind c s < Z.of_nat (String.length s))%Z.
Proof.
  destruct (rfind_spec c s) as [[-> _]|(a & b & -> & _ & ->)]; [by left|].
  right. rewrite length_append. cbn [String.length]. lia.
Qed.

Lemma rfind_append (c : ascii) (a b : string) :
  rfind c (a +:+ b)
  = if (0 <=? rfind c b)%Z then (Z.of_nat (String.length a) + rfind c b)%Z
    else rfind c a.
Proof.
  induction a as [|x a IH]; cbn [String.append String.length rfind].
  - destruct (Z.leb_spec 0 (rfind c b)); [done|].
    destruct (rfind_bounds c b); lia.
  - cbv zeta. rewrite IH.
    destruct (Z.leb_spec 0 (rfind c b)) as [Hb|Hb]; [|done].
    destruct (Z.leb_spec 0 (Z.of_nat (String.length a) + rfind c b)); lia.
Qed.

Lemma str_drop_append_lt (k : nat) (a b : string) :
  (k < String.length a)%nat →
  str_take 1 (str_drop k (a +:+ b)) = str_take 1 (str_drop k a).
Proof.
  revert a. induction k as [|k IH]; intros [|x a] Hk; cbn in Hk; try lia.
  - done.
  - cbn [String.append str_drop]. apply IH. lia.
Qed.

(** The loop of [os.path.splitext] looks at the characters from
    [filenameIndex] on only: what follows the part it runs over does not
    matter, and a longer run finds what a shorter one found. *)
Lemma splitext_loop_prefix (n : nat) (a b : string) (i : nat) :
  (i + n ≤ String.length a)%nat →
  splitext_loop n (a +:+ b) i = splitext_loop n a i.
Proof.
  revert i. induction n as [|n IH]; intros i Hi; [done|].
  cbn [splitext_loop]. rewrite str_drop_append_lt by lia.
  destruct (negb _); [done|]. apply IH. lia.
Qed.

Lemma splitext_loop_more (n m : nat) (p : string) (i : nat) :
  splitext_loop n p i = true → splitext_loop (n + m) p i = true.
Proof.
  revert i. induction n as [|n IH]; intros i; [done|].
  cbn [splitext_loop Nat.add]. destruct (negb _); [done|]. apply IH.
Qed.

Lemma os_path_splitext_copy (path : string) :
  (os_path_splitext path).2 = ".ipynb" →
  os_path_splitext (output_path false path)
  = ((os_path_splitext path).1 +:+ "-converted", ".ipynb").
Proof.
  intros Hext. pose proof (os_path_splitext_spec path) as [Hpath _].
  unfold output_path, CONVERTED. rewrite Hext in *.
  set (head := (os_path_splitext path).1) in *.
  assert (os_path_splitext (head +:+ ".ipynb") = (head, ".ipynb")) as Hsplit.
  { rewrite <- Hpath. subst head. rewrite <- Hext.
    by destruct (os_path_splitext path). }
  clearbody head. clear Hpath Hext path.
  unfold os_path_splitext in *.
  replace (head +:+ "-converted" +:+ ".ipynb")
    with (head +:+ "-converted.ipynb") by done.
  rewrite !rfind_append in *.
  change (rfind "." ".ipynb") with 0%Z in Hsplit.
  change (rfind "/" ".ipynb") with (-1)%Z in Hsplit.
  change (rfind "." "-converted.ipynb") with 10%Z.
  change (rfind "/" "-converted.ipynb") with (-1)%Z.
  cbn [Z.leb Z.compare] in *.
  set (S0 := rfind "/" head) in *.
  set (L := String.length head) in *.
  assert (-1 ≤ S0 < Z.of_nat L)%Z as Hbounds
    by (destruct (rfind_bounds "/" head); subst S0 L; lia).
  destruct ((S0 <? Z.of_nat L + 0)%Z && _) eqn:Hc in Hsplit.
  - apply andb_true_iff in Hc as [_ Hloop].
    set (n := Z.to_nat (Z.of_nat L + 0 - (S0 + 1))) in *.
    set (i := Z.to_nat (S0 + 1)) in *.
    assert (i + n ≤ String.length head)%nat as Hin by (subst i n L; lia).
    rewrite splitext_loop_prefix in Hloop by done.
    replace (S0 <? Z.of_nat L + 10)%Z with true
      by (symmetry; apply Z.ltb_lt; lia).
    replace (Z.to_nat (Z.of_nat L + 10 - (S0 + 1))) with (n + 10)%nat
      by (subst n; lia).
    rewrite splitext_loop_more
      by (by rewrite splitext_loop_prefix).
    cbn [andb].
    replace (Z.to_nat (Z.of_nat L + 10))
      with (String.length (head +:+ "-converted"))
      by (rewrite length_append; subst L; cbn; lia).
    replace (head +:+ "-converted.ipynb")
      with ((head +:+ "-converted") +:+ ".ipynb")
      by (by rewrite append_assoc).
    by rewrite str_take_append, str_drop_append.
  - injection Hsplit as Hbad _.
    apply (f_equal String.length) in Hbad. rewrite length_append in Hbad.
    cbn in Hbad. lia.
Qed.


(** X15.  The copy of a notebook is a notebook file again: when the
    path has the notebook extension and the conversion is not in place,
    the output path splits into the stem of the input path followed by the
    converted marker, and the notebook extension; it is ten characters
    longer than the input path, so it is another path. *)
Theorem copy_keeps_notebook_extension (self self' : IpynbConverter)
    (path : string) (w w' : World) (notebook : json) :
  inplace self = false →
  (os_path_splitext path).2 = ".ipynb" →
  convert self path w = (Ok (self', notebook), w') →
  ∃ out, _path self' = Some out
         ∧ os_path_splitext out
           = ((os_path_splitext path).1 +:+ "-converted", ".ipynb")
         ∧ String.length out = (String.length path + 10)%nat
         ∧ out ≠ path.
Proof.
  intros Hi Hext H.
  destruct (convert_Ok_inv _ _ _ _ _ _ H)
    as (dc & du & tags & link & title & d & cells & header & link_cell
        & _ & _ & _ & _ & _ & _ & _ & -> & _).
  rewrite Hi. exists (output_path false path). split; [done|].
  split; [by apply os_path_splitext_copy|].
  assert (String.length (output_path false path)
          = (String.length path + 10)%nat) as Hlen.
  { pose proof (os_path_splitext_spec path) as [Hpath _].
    rewrite Hpath at 2. unfold output_path, CONVERTED.
    rewrite !length_append. cbn [String.length]. lia. }
  split; [exact Hlen|]. intros E. rewrite E in Hlen. lia.
Qed.

(** ** The child process of [add] *)

Lemma str_drop_last (a : string) (c : ascii) :
  str_drop (String.length (a +:+ String c "") - 1) (a +:+ String c "")
  = String c "".
Proof.
  induction a as [|x a IH]; [done|].
  cbn [String.append String.length]. rewrite Nat.sub_1_r. cbn [Nat.pred].
  rewrite length_append in *. cbn [String.length] in *.
  replace (String.length a + 1)%nat with (S (String.length a + 1 - 1)) by lia.
  exact IH.
Qed.

(** The tag holds no slash. *)
Lemma tags_plain (path tags link : string) :
  _tags_and_github_link path = Ok (tags, link) → has_char "/" tags = false.
Proof.
  unfold _tags_and_github_link.
  destruct (py_split REPO_NAME path) as [|? [|file_path [|]]]; try done.
  pose proof (os_path_split_tail file_path) as (dir & _ & Hslash & _).
  destruct (os_path_split file_path) as [? file_name]. cbn [snd] in Hslash.
  pose proof (os_path_splitext_spec file_name) as [Hname _].
  destruct (os_path_splitext file_name) as [tags' ext]. cbn [fst snd] in Hname.
  intros [= <- _]. rewrite Hname, has_char_append in Hslash.
  by apply orb_false_iff in Hslash as [-> _].
Qed.

Lemma os_path_join_project (knowledge_repo_path tags : string) :
  has_char "/" tags = false →
  os_path_join knowledge_repo_path ["project"; tags]
  = os_path_join knowledge_repo_path ["project"] +:+ "/" +:+ tags
  ∧ (os_path_join knowledge_repo_path ["project"]
     = knowledge_repo_path +:+ "project"
     ∨ os_path_join knowledge_repo_path ["project"]
       = knowledge_repo_path +:+ "/project").
Proof.
  intros Ht. unfold os_path_join. cbn [fold_left].
  change (String.prefix "/" "project") with false. cbv iota.
  assert (String.prefix "/" tags = false) as ->.
  { destruct (String.prefix "/" tags) eqn:E; [|done].
    apply prefix_spec in E as [rest ->]. by cbn in Ht. }
  assert (∀ a : string,
             String.eqb (a +:+ "project") "" ||
             String.eqb (str_drop (String.length (a +:+ "project") - 1)
                                  (a +:+ "project")) "/" = false) as Hlast.
  { intros a.
    replace (a +:+ "project") with ((a +:+ "projec") +:+ "t")
      by (by rewrite append_assoc).
    rewrite str_drop_last. cbn [String.eqb Ascii.eqb]. rewrite orb_false_r.
    apply String.eqb_neq. by destruct a. }
  destruct (String.eqb knowledge_repo_path "" || _).
  - rewrite Hlast. by split; [|left].
  - replace (knowledge_repo_path +:+ "/" +:+ "project")
      with ((knowledge_repo_path +:+ "/") +:+ "project")
      by (by rewrite append_assoc).
    rewrite Hlast. split; [done|]. right. by rewrite append_assoc.
Qed.

(** X16.  The registration that follows a conversion.  On what
    [convert] returned, [add] fails only at opening its output file, and
    then it has written nothing and started no child process.  When the
    file can be opened, [add] completes: it prints nothing, starts one
    child process and sends it the commit message, and the destination in
    the command is the tag directly under the project directory of the
    knowledge repo: the tag holds no slash. *)
Theorem registration_goes_under_project (self self' : IpynbConverter)
    (path : string) (w w' : World) (notebook : json) :
  convert self path w = (Ok (self', notebook), w') →
  ∃ (tags link out project : string),
    _tags_and_github_link path = Ok (tags, link)
    ∧ has_char "/" tags = false
    ∧ _path self' = Some out
    ∧ (project = knowledge_repo_path self +:+ "project"
       ∨ project = knowledge_repo_path self +:+ "/project")
    ∧ (∀ e, open_w out = Raise e →
            add self' notebook w' = (Raise e, w'))
    ∧ (open_w out = Ok tt →
       ∃ (w'' : World) (status : Z),
         add self' notebook w' = (Ok tt, w'')
         ∧ stdout w'' = stdout w'
         ∧ processes w''
           = (processes w' ++
              [{| cmd := "knowledge_repo --repo " +:+ knowledge_repo_path self
                         +:+ " add " +:+ out +:+ " -p " +:+ project +:+ "/"
                         +:+ tags;
                  input := "generated by automated airbnb knowledge repo setup";
                  returncode := status |}])%list).
Proof.
  intros H.
  destruct (convert_Ok_inv _ _ _ _ _ _ H)
    as (dc & du & tags & link & title & d & cells & header & link_cell
        & _ & _ & Ht & _ & _ & _ & -> & -> & _).
  pose proof (tags_plain _ _ _ Ht) as Hplain.
  destruct (os_path_join_project (knowledge_repo_path self) tags Hplain)
    as [Hjoin Hproject].
  exists tags, link, (output_path (inplace self) path),
    (os_path_join (knowledge_repo_path self) ["project"]).
  split; [done|]. split; [done|]. split; [done|].
  split; [exact Hproject|]. split.
  - intros e Hw. by apply (add_write_fails _ _ _ (output_path (inplace self) path)).
  - intros Hw. eexists _, _. split; [by erewrite add_ok|].
    cbn [stdout processes]. split; [done|].
    unfold registration, add_cmd, COMMIT_MESSAGE.
    cbn [knowledge_repo_path converted_self set_path set_title
         set_tags_and_github_link set_date_updated set_date_created].
    by rewrite Hjoin.
Qed.

(** ** A whole run *)


End Converter.


(** ** The statements on the sample repository *)

(** C3.  On a notebook without a level 1 header the title is not
    found: [_title] raises, and so does [convert], which returns no
    notebook and builds no header. *)
Theorem convert_without_heading_raises :
  _title untitled_notebook = Raise (UnboundLocalError "title")
  ∧ convert sample_check_output sample_parse sample_strftime
            (__init__ "knowledge-repo" false) sample_untitled sample_world
    = (Raise (UnboundLocalError "title"), sample_world).
Proof. split; [reflexivity|]. vm_compute. reflexivity. Qed.

(** C1.  On a notebook document whose list of cells is empty, read
    from a path for which the dates and the tag and link are found,
    [convert] returns no document: the title is never bound and the
    exception of [_title] ends the conversion before a cell is put in
    front. *)
Theorem convert_raises_on_notebook_without_title :
  dict_get "cells" empty_fields = Some (JArr [])
  ∧ files empty_world !! sample_empty = Some (JsonFile (JObj empty_fields))
  ∧ _date_created sample_check_output sample_parse sample_strftime sample_empty
    = Ok "2017-12-02"
  ∧ _date_updated sample_check_output sample_parse sample_strftime sample_empty
    = Ok "2017-12-02"
  ∧ _tags_and_github_link sample_empty
    = Ok ("empty",
          "https://github.com/ethen8181/machine-learning/blob/master/trees/empty.ipynb")
  ∧ convert sample_check_output sample_parse sample_strftime
      (__init__ "knowledge-repo" false) sample_empty empty_world
    = (Raise (UnboundLocalError "title"), empty_world).
Proof. repeat split; vm_compute; reflexivity. Qed.

(** C5.  On a directory with a notebook that cannot be parsed and a
    notebook that is a valid document without a level 1 header, the walk
    ends normally, but it reports both files as skipped and registers
    none: the second conversion raises in [_title]. *)
Theorem walk_skips_notebook_without_title :
  files sample_world !! sample_bad = Some (TextFile "{")
  ∧ files sample_world !! sample_untitled = Some (JsonFile untitled_notebook)
  ∧ convert_all_posts sample_check_output sample_parse sample_strftime
      sample_wait sample_open_w sample_str_exn sample_root
      (FsDir [("broken.ipynb", FsFile); ("untitled.ipynb", FsFile)])
      "knowledge-repo" false sample_world
    = (Ok tt,
       {| files := files sample_world;
          stdout := ["Skipping: " +:+ sample_bad;
                     sample_str_exn JSONDecodeError;
                     "Skipping: " +:+ sample_untitled;
                     sample_str_exn (UnboundLocalError "title")];
          processes := [] |}).
Proof. repeat split; vm_compute; reflexivity. Qed.

Lemma convert_prepends_header_and_link_witness :
  (_date_created sample_check_output sample_parse sample_strftime sample_good
   = Ok "2017-12-02"
   ∧ _date_updated sample_check_output sample_parse sample_strftime sample_good
     = Ok "2017-12-02"
   ∧ _tags_and_github_link sample_good = Ok ("decision_tree", sample_link)
   ∧ files sample_world !! sample_good = Some (JsonFile (JObj sample_fields))
   ∧ dict_get "cells" sample_fields = Some (JArr sample_cells)
   ∧ _title (JObj sample_fields) = Ok "Decision Tree (Classification)")
  ∧ ∃ (self' : IpynbConverter) (d' : dict) (header link_cell : json),
      convert sample_check_output sample_parse sample_strftime
              (__init__ "knowledge-repo" false) sample_good sample_world
      = (Ok (self', JObj d'), sample_world)
      ∧ title_ self' = Some "Decision Tree (Classification)"
      ∧ tags_ self' = Some "decision_tree"
      ∧ github_link_ self' = Some sample_link
      ∧ date_created_ self' = Some "2017-12-02"
      ∧ date_updated_ self' = Some "2017-12-02"
      ∧ header = sample_header
      ∧ link_cell = sample_link_cell
      ∧ dict_get "cells" d' = Some (JArr ([header; link_cell] ++ sample_cells))
      ∧ (∀ k, k ≠ "cells" → dict_get k d' = dict_get k sample_fields)
      ∧ dict_keys d' = dict_keys sample_fields.
Proof.
  assert (_date_created sample_check_output sample_parse sample_strftime
            sample_good = Ok "2017-12-02") as H1 by reflexivity.
  assert (_date_updated sample_check_output sample_parse sample_strftime
            sample_good = Ok "2017-12-02") as H2 by reflexivity.
  assert (_tags_and_github_link sample_good
          = Ok ("decision_tree", sample_link)) as H3
    by (vm_compute; reflexivity).
  assert (files sample_world !! sample_good
          = Some (JsonFile (JObj sample_fields))) as H4
    by (vm_compute; reflexivity).
  assert (dict_get "cells" sample_fields = Some (JArr sample_cells)) as H5
    by reflexivity.
  assert (_title (JObj sample_fields) = Ok "Decision Tree (Classification)")
    as H6 by reflexivity.
  split; [by repeat split|].
  exact (convert_prepends_header_and_link sample_check_output sample_parse
           sample_strftime (__init__ "knowledge-repo" false) sample_good
           sample_world sample_fields sample_cells _ _ _ _ _
           H1 H2 H3 H4 H5 H6).
Defined.

Lemma title_first_heading_witness :
  (dict_get "cells" sample_fields
   = Some (JArr ([markdown ("# Table of Contents" +:+ nl);
                  code "import numpy as np"]
                 ++ markdown ("# Decision Tree (Classification)" +:+ nl) :: []))
   ∧ Forall passed_cell [markdown ("# Table of Contents" +:+ nl);
                         code "import numpy as np"]
   ∧ heading_cell (markdown ("# Decision Tree (Classification)" +:+ nl))
                  "Decision Tree (Classification)"
   ∧ "Decision Tree (Classification)" ≠ TABLE_OF_CONTENTS
   ∧ _title (JObj sample_fields) = Ok "Decision Tree (Classification)")
  ∧
  (dict_get "cells" [("cells", JArr [markdown ("# Table of Contents" +:+ nl);
                                     code "import numpy as np";
                                     markdown ("# Real Title" +:+ nl)])]
   = Some (JArr ([] ++ markdown ("# Table of Contents" +:+ nl)
                 :: [code "import numpy as np"]
                 ++ markdown ("# Real Title" +:+ nl) :: []))
   ∧ Forall other_cell []
   ∧ markdown_cell (markdown ("# Table of Contents" +:+ nl))
                   ("# Table of Contents" +:+ nl)
   ∧ Forall other_cell [code "import numpy as np"]
   ∧ markdown_cell (markdown ("# Real Title" +:+ nl)) ("# Real Title" +:+ nl)
   ∧ _title (JObj [("cells", JArr [markdown ("# Table of Contents" +:+ nl);
                                   code "import numpy as np";
                                   markdown ("# Real Title" +:+ nl)])])
     = Ok "Real Title").
Proof.
  assert (Forall passed_cell [markdown ("# Table of Contents" +:+ nl);
                              code "import numpy as np"]) as Hpassed.
  { constructor; [|constructor; [|constructor]].
    - right. exists ("# Table of Contents" +:+ nl).
      split; [apply markdown_cell_markdown|reflexivity].
    - left. left. apply other_cell_code. }
  assert (heading_cell (markdown ("# Decision Tree (Classification)" +:+ nl))
                       "Decision Tree (Classification)") as Hheading.
  { exists ("# Decision Tree (Classification)" +:+ nl).
    split; [apply markdown_cell_markdown|reflexivity]. }
  assert ("Decision Tree (Classification)" ≠ TABLE_OF_CONTENTS) as Hne
    by discriminate.
  assert (Forall other_cell [code "import numpy as np"]) as Hcode.
  { constructor; [apply other_cell_code|constructor]. }
  split.
  - split; [reflexivity|]. split; [exact Hpassed|]. split; [exact Hheading|].
    split; [exact Hne|].
    exact (proj1 title_first_heading sample_fields
             [markdown ("# Table of Contents" +:+ nl); code "import numpy as np"]
             [] (markdown ("# Decision Tree (Classification)" +:+ nl))
             "Decision Tree (Classification)"
             eq_refl Hpassed Hheading Hne).
  - split; [reflexivity|]. split; [constructor|].
    split; [apply markdown_cell_markdown|]. split; [exact Hcode|].
    split; [apply markdown_cell_markdown|].
    exact (proj2 title_first_heading
             [("cells", JArr [markdown ("# Table of Contents" +:+ nl);
                              code "import numpy as np";
                              markdown ("# Real Title" +:+ nl)])]
             [] [code "import numpy as np"] []
             (markdown ("# Table of Contents" +:+ nl))
             (markdown ("# Real Title" +:+ nl))
             eq_refl (List.Forall_nil other_cell) (markdown_cell_markdown _) Hcode
             (markdown_cell_markdown _)).
Defined.

Lemma title_table_of_contents_kept_witness :
  (dict_get "cells" [("cells", JArr [code "import numpy as np";
                                     markdown ("# Table of Contents" +:+ nl);
                                     markdown "Some notes."])]
   = Some (JArr ([code "import numpy as np"]
                 ++ markdown ("# Table of Contents" +:+ nl)
                 :: [markdown "Some notes."]))
   ∧ Forall passed_cell [code "import numpy as np"]
   ∧ heading_cell (markdown ("# Table of Contents" +:+ nl)) TABLE_OF_CONTENTS
   ∧ Forall passed_cell [markdown "Some notes."])
  ∧ _title (JObj [("cells", JArr [code "import numpy as np";
                                  markdown ("# Table of Contents" +:+ nl);
                                  markdown "Some notes."])])
    = Ok TABLE_OF_CONTENTS.
Proof.
  assert (Forall passed_cell [code "import numpy as np"]) as Hbefore.
  { constructor; [|constructor]. left. left. apply other_cell_code. }
  assert (heading_cell (markdown ("# Table of Contents" +:+ nl))
                       TABLE_OF_CONTENTS) as Htoc.
  { exists ("# Table of Contents" +:+ nl).
    split; [apply markdown_cell_markdown|reflexivity]. }
  assert (Forall passed_cell [markdown "Some notes."]) as Hafter.
  { constructor; [|constructor]. left. right. exists "Some notes.".
    split; [apply markdown_cell_markdown|reflexivity]. }
  split; [by repeat split|].
  exact (title_table_of_contents_kept
           [("cells", JArr [code "import numpy as np";
                            markdown ("# Table of Contents" +:+ nl);
                            markdown "Some notes."])]
           [code "import numpy as np"] [markdown "Some notes."]
           (markdown ("# Table of Contents" +:+ nl))
           eq_refl Hbefore Htoc Hafter).
Defined.

Lemma header_is_ten_line_raw_cell_witness :
  (title_ (sample_self false) = Some "Decision Tree (Classification)"
   ∧ tags_ (sample_self false) = Some "decision_tree"
   ∧ date_created_ (sample_self false) = Some "2017-12-02"
   ∧ date_updated_ (sample_self false) = Some "2017-12-02")
  ∧ ∃ lines : list string,
      _construct_header (sample_self false)
      = Ok (JObj [("cell_type", JStr "raw"); ("metadata", JObj []);
                  ("source", JArr (map JStr lines))])
      ∧ lines = [ "---" +:+ nl;
                  "title: " +:+ "Decision Tree (Classification)" +:+ nl;
                  "authors:" +:+ nl;
                  "- Ethen Liu" +:+ nl;
                  "tags:" +:+ nl;
                  "- " +:+ "decision_tree" +:+ nl;
                  "created_at: " +:+ "2017-12-02" +:+ nl;
                  "updated_at: " +:+ "2017-12-02" +:+ nl;
                  "tldr: Nothing for tldr section as of now." +:+ nl;
                  "---" ]
      ∧ length lines = 10%nat
      ∧ head lines = Some ("---" +:+ nl)
      ∧ last lines = Some "---"
      ∧ (∀ (i : nat) (line : string),
            (i < 9)%nat → lines !! i = Some line → ∃ text, line = text +:+ nl).
Proof.
  split; [by repeat split|].
  exact (header_is_ten_line_raw_cell (sample_self false) _ _ _ _
           eq_refl eq_refl eq_refl eq_refl).
Defined.


Lemma output_path_and_cleanup_witness :
  (convert sample_check_output sample_parse sample_strftime
           (__init__ "knowledge-repo" false) sample_good sample_world
   = (Ok (sample_self false, sample_converted), sample_world)
   ∧ inplace (sample_self false) = false
   ∧ tags_ (sample_self false) ≠ None
   ∧ ∃ head ext,
       os_path_splitext sample_good = (head, ext)
       ∧ sample_good = head +:+ ext
       ∧ _path (sample_self false) = Some (head +:+ "-converted" +:+ ext))
  ∧
  (inplace (sample_self false) = false
   ∧ _path (sample_self false) = Some (output_path false sample_good)
   ∧ tags_ (sample_self false) = Some "decision_tree"
   ∧ sample_open_w (output_path false sample_good) = Ok tt
   ∧ (∃ w', add sample_wait sample_open_w (sample_self false) sample_converted
              sample_world = (Ok tt, w')
            ∧ files w' !! output_path false sample_good = None
            ∧ files w' = delete (output_path false sample_good)
                                (files sample_world)
            ∧ ∃ status,
                processes w'
                = (processes sample_world ++
                   [registration "knowledge-repo"
                      (output_path false sample_good) "decision_tree"
                      status])%list)
   ∧ read_only_open_w (output_path false sample_good)
     = Raise (PermissionError (output_path false sample_good))
   ∧ add sample_wait read_only_open_w (sample_self false) sample_converted
       sample_world
     = (Raise (PermissionError (output_path false sample_good)), sample_world))
  ∧
  (inplace (sample_self true) = true
   ∧ _path (sample_self true) = Some sample_good
   ∧ tags_ (sample_self true) = Some "decision_tree"
   ∧ sample_open_w sample_good = Ok tt
   ∧ (∃ w', add sample_wait sample_open_w (sample_self true) sample_converted
              sample_world = (Ok tt, w')
            ∧ files w' = <[sample_good := JsonFile sample_converted]>
                           (files sample_world))
   ∧ read_only_open_w sample_good = Raise (PermissionError sample_good)
   ∧ add sample_wait read_only_open_w (sample_self true) sample_converted
       sample_world
     = (Raise (PermissionError sample_good), sample_world)).
Proof.
  assert (convert sample_check_output sample_parse sample_strftime
            (__init__ "knowledge-repo" false) sample_good sample_world
          = (Ok (sample_self false, sample_converted), sample_world)) as Hconv
    by (vm_compute; reflexivity).
  split; [|split].
  - split; [exact Hconv|].
    exact (proj1 (output_path_and_cleanup sample_check_output sample_parse
                    sample_strftime sample_wait sample_open_w)
             _ _ _ _ _ _ Hconv).
  - do 4 (split; [reflexivity|]).
    destruct (proj1 (proj2 (output_path_and_cleanup sample_check_output
                              sample_parse sample_strftime sample_wait
                              sample_open_w))
                (sample_self false) sample_converted sample_world
                (output_path false sample_good) "decision_tree"
                eq_refl eq_refl eq_refl)
      as (Hdone & Hopen & _).
    destruct (Hopen eq_refl) as [w' Hadd].
    split; [exists w'; split; [exact Hadd|exact (Hdone w' Hadd)]|].
    split; [reflexivity|].
    exact (proj2 (proj2 (proj1 (proj2 (output_path_and_cleanup
                                         sample_check_output sample_parse
                                         sample_strftime sample_wait
                                         read_only_open_w))
                           (sample_self false) sample_converted sample_world
                           (output_path false sample_good) "decision_tree"
                           eq_refl eq_refl eq_refl))
             _ eq_refl).
  - do 4 (split; [reflexivity|]).
    destruct (proj2 (proj2 (output_path_and_cleanup sample_check_output
                              sample_parse sample_strftime sample_wait
                              sample_open_w))
                (sample_self true) sample_converted sample_world
                sample_good "decision_tree" eq_refl eq_refl eq_refl)
      as (Hdone & Hopen & _).
    destruct (Hopen eq_refl) as [w' Hadd].
    split; [exists w'; split; [exact Hadd|exact (Hdone w' Hadd)]|].
    split; [reflexivity|].
    exact (proj2 (proj2 (proj2 (proj2 (output_path_and_cleanup
                                         sample_check_output sample_parse
                                         sample_strftime sample_wait
                                         read_only_open_w))
                           (sample_self true) sample_converted sample_world
                           sample_good "decision_tree"
                           eq_refl eq_refl eq_refl))
             _ eq_refl).
Defined.

Lemma marked_files_are_never_converted_witness :
  (contains CONVERTED
     "/Users/ethen/machine-learning/trees/decision_tree-converted.ipynb" = true
   ∧ convert_all_posts sample_check_output sample_parse sample_strftime
       sample_wait sample_open_w sample_str_exn
       "/Users/ethen/machine-learning/trees/decision_tree-converted.ipynb"
       FsFile "knowledge-repo" false sample_world
     = (Ok tt, sample_world))
  ∧
  ((os_path_splitext "/Users/ethen/machine-learning/README.md").2 ≠ ".ipynb"
   ∧ convert_all_posts sample_check_output sample_parse sample_strftime
       sample_wait sample_open_w sample_str_exn "/Users/ethen/machine-learning/README.md"
       FsFile "knowledge-repo" false sample_world
     = (Ok tt, sample_world))
  ∧
  (contains CONVERTED sample_good = false
   ∧ (os_path_splitext sample_good).2 = ".ipynb"
   ∧ convert_all_posts sample_check_output sample_parse sample_strftime
       sample_wait sample_open_w sample_str_exn sample_good FsFile "knowledge-repo" false
       sample_world
     = convert_post sample_check_output sample_parse sample_strftime
         sample_wait sample_open_w sample_str_exn "knowledge-repo" false sample_good
         sample_world).
Proof.
  assert (contains CONVERTED
            "/Users/ethen/machine-learning/trees/decision_tree-converted.ipynb"
          = true) as H1 by (vm_compute; reflexivity).
  assert ((os_path_splitext "/Users/ethen/machine-learning/README.md").2
          ≠ ".ipynb") as H2 by (vm_compute; discriminate).
  assert (contains CONVERTED sample_good = false) as H3
    by (vm_compute; reflexivity).
  assert ((os_path_splitext sample_good).2 = ".ipynb") as H4
    by (vm_compute; reflexivity).
  pose proof (marked_files_are_never_converted sample_check_output sample_parse
                sample_strftime sample_wait sample_open_w sample_str_exn)
    as (Hmarked & Hother & Hnotebook & _).
  split; [|split].
  - split; [exact H1|]. exact (Hmarked _ "knowledge-repo" false sample_world H1).
  - split; [exact H2|]. exact (Hother _ "knowledge-repo" false sample_world H2).
  - split; [exact H3|]. split; [exact H4|].
    exact (Hnotebook _ "knowledge-repo" false sample_world H3 H4).
Defined.

Lemma tags_and_github_link_needs_one_anchor_witness :
  (occurrences REPO_NAME sample_good = 1%nat
   ∧ ∃ tags link, _tags_and_github_link sample_good = Ok (tags, link))
  ∧
  (occurrences REPO_NAME "/Users/ethen/notes/decision_tree.ipynb" ≠ 1%nat
   ∧ _tags_and_github_link "/Users/ethen/notes/decision_tree.ipynb"
     = Raise ValueError
   ∧ (∀ (self : IpynbConverter) (w : World),
         ∃ e, convert sample_check_output sample_parse sample_strftime self
                "/Users/ethen/notes/decision_tree.ipynb" w = (Raise e, w))
   ∧ (∀ (knowledge_repo_path : string) (inplace : bool) (w : World),
         eligible "/Users/ethen/notes/decision_tree.ipynb" = true →
         ∃ e, convert_all_posts sample_check_output sample_parse
                sample_strftime sample_wait sample_open_w sample_str_exn
                "/Users/ethen/notes/decision_tree.ipynb" FsFile
                knowledge_repo_path inplace w
              = (Ok tt,
                 with_skip_lines "/Users/ethen/notes/decision_tree.ipynb"
                   (sample_str_exn e) w)))
  ∧
  (occurrences REPO_NAME
     "/Users/ethen/machine-learning/machine-learning/a.ipynb" ≠ 1%nat
   ∧ _tags_and_github_link
       "/Users/ethen/machine-learning/machine-learning/a.ipynb"
     = Raise ValueError).
Proof.
  assert (occurrences REPO_NAME sample_good = 1%nat) as H1
    by (vm_compute; reflexivity).
  assert (occurrences REPO_NAME "/Users/ethen/notes/decision_tree.ipynb"
          ≠ 1%nat) as H0 by (vm_compute; discriminate).
  assert (occurrences REPO_NAME
            "/Users/ethen/machine-learning/machine-learning/a.ipynb" ≠ 1%nat)
    as H2 by (vm_compute; discriminate).
  split; [|split].
  - split; [exact H1|].
    exact (proj1 (tags_and_github_link_needs_one_anchor sample_check_output
                    sample_parse sample_strftime sample_wait sample_open_w sample_str_exn
                    sample_good) H1).
  - split; [exact H0|].
    exact (proj2 (tags_and_github_link_needs_one_anchor sample_check_output
                    sample_parse sample_strftime sample_wait sample_open_w sample_str_exn
                    "/Users/ethen/notes/decision_tree.ipynb") H0).
  - split; [exact H2|].
    exact (proj1 (proj2 (tags_and_github_link_needs_one_anchor
                           sample_check_output sample_parse sample_strftime
                           sample_wait sample_open_w sample_str_exn
                           "/Users/ethen/machine-learning/machine-learning/a.ipynb")
                    H2)).
Defined.

Lemma walk_survives_failing_notebooks_witness :
  (eligible sample_bad = true
   ∧ (r ← convert sample_check_output sample_parse sample_strftime
            (__init__ "knowledge-repo" false) sample_bad;
      add sample_wait sample_open_w r.1 r.2) sample_world
     = (Raise JSONDecodeError, sample_world)
   ∧ convert_all_posts sample_check_output sample_parse sample_strftime
       sample_wait sample_open_w sample_str_exn sample_bad FsFile "knowledge-repo" false
       sample_world
     = (Ok tt,
        with_skip_lines sample_bad (sample_str_exn JSONDecodeError)
          sample_world))
  ∧
  (sample_bad = os_path_join sample_root ["broken.ipynb"]
   ∧ sample_good = os_path_join sample_root ["decision_tree.ipynb"]
   ∧ eligible sample_bad = true
   ∧ eligible sample_good = true
   ∧ sample_bad ≠ sample_good
   ∧ files sample_world !! sample_bad = Some (TextFile "{")
   ∧ _date_created sample_check_output sample_parse sample_strftime sample_good
     = Ok "2017-12-02"
   ∧ _date_updated sample_check_output sample_parse sample_strftime sample_good
     = Ok "2017-12-02"
   ∧ _tags_and_github_link sample_good = Ok ("decision_tree", sample_link)
   ∧ files sample_world !! sample_good = Some (JsonFile (JObj sample_fields))
   ∧ dict_get "cells" sample_fields = Some (JArr sample_cells)
   ∧ _title (JObj sample_fields) = Ok "Decision Tree (Classification)"
   ∧ sample_open_w (output_path false sample_good) = Ok tt
   ∧ ∃ (w' : World) (e : exn) (status : Z),
       convert_all_posts sample_check_output sample_parse sample_strftime
         sample_wait sample_open_w sample_str_exn sample_root
         (FsDir [("broken.ipynb", FsFile); ("decision_tree.ipynb", FsFile)])
         "knowledge-repo" false sample_world
       = (Ok tt, w')
       ∧ processes w'
         = (processes sample_world ++
            [registration "knowledge-repo" (output_path false sample_good)
                          "decision_tree" status])%list
       ∧ stdout w'
         = (stdout sample_world ++
            ["Skipping: " +:+ sample_bad; sample_str_exn e])%list).
Proof.
  assert (eligible sample_bad = true) as Hbad by (vm_compute; reflexivity).
  assert (eligible sample_good = true) as Hgood by (vm_compute; reflexivity).
  assert ((r ← convert sample_check_output sample_parse sample_strftime
                 (__init__ "knowledge-repo" false) sample_bad;
           add sample_wait sample_open_w r.1 r.2) sample_world
          = (Raise JSONDecodeError, sample_world)) as Hbody
    by (vm_compute; reflexivity).
  assert (sample_bad ≠ sample_good) as Hne by discriminate.
  assert (files sample_world !! sample_bad = Some (TextFile "{")) as Hfbad
    by (vm_compute; reflexivity).
  assert (_tags_and_github_link sample_good
          = Ok ("decision_tree", sample_link)) as Ht
    by (vm_compute; reflexivity).
  assert (files sample_world !! sample_good
          = Some (JsonFile (JObj sample_fields))) as Hfgood
    by (vm_compute; reflexivity).
  pose proof (walk_survives_failing_notebooks sample_check_output sample_parse
                sample_strftime sample_wait sample_open_w sample_str_exn)
    as (_ & Hskip & Hdir).
  split.
  - split; [exact Hbad|]. split; [exact Hbody|].
    exact (Hskip sample_bad "knowledge-repo" false sample_world sample_world
             JSONDecodeError Hbad Hbody).
  - do 2 (split; [reflexivity|]). split; [exact Hbad|]. split; [exact Hgood|].
    split; [exact Hne|]. split; [exact Hfbad|]. do 2 (split; [reflexivity|]).
    split; [exact Ht|]. split; [exact Hfgood|]. do 3 (split; [reflexivity|]).
    exact (Hdir sample_root "broken.ipynb" "decision_tree.ipynb" sample_bad
             sample_good "knowledge-repo" false
             [("broken.ipynb", FsFile); ("decision_tree.ipynb", FsFile)]
             sample_world "{" sample_fields sample_cells
             "2017-12-02" "2017-12-02" "decision_tree" sample_link
             "Decision Tree (Classification)"
             eq_refl eq_refl (or_introl eq_refl) Hbad Hgood Hne Hfbad
             eq_refl eq_refl Ht Hfgood eq_refl eq_refl eq_refl).
Defined.

(** ** The further statements on the sample repository *)

Lemma converted_copy_is_skipped_witness :
  (inplace (__init__ "knowledge-repo" false) = false
   ∧ convert sample_check_output sample_parse sample_strftime
       (__init__ "knowledge-repo" false) sample_good sample_world
     = (Ok (sample_self false, sample_converted), sample_world))
  ∧ ∃ out, _path (sample_self false) = Some out
           ∧ contains CONVERTED out = true
           ∧ eligible out = false
           ∧ ∀ (knowledge_repo_path : string) (inplace : bool) (w0 : World),
               convert_all_posts sample_check_output sample_parse
                 sample_strftime sample_wait sample_open_w sample_str_exn out FsFile
                 knowledge_repo_path inplace w0
               = (Ok tt, w0).
Proof.
  assert (convert sample_check_output sample_parse sample_strftime
            (__init__ "knowledge-repo" false) sample_good sample_world
          = (Ok (sample_self false, sample_converted), sample_world)) as Hconv
    by (vm_compute; reflexivity).
  split; [by split|].
  exact (converted_copy_is_skipped sample_check_output sample_parse
           sample_strftime sample_wait sample_open_w sample_str_exn
           (__init__ "knowledge-repo" false) (sample_self false) sample_good
           sample_world sample_world sample_converted eq_refl Hconv).
Defined.

Lemma title_comes_from_a_markdown_header_witness :
  _title sample_notebook = Ok "Decision Tree (Classification)"
  ∧ ∃ (d : dict) (cells : list json) (cell : json) (line rest : string),
      sample_notebook = JObj d
      ∧ dict_get "cells" d = Some (JArr cells)
      ∧ In cell cells
      ∧ markdown_cell cell line
      ∧ line = "# " +:+ "Decision Tree (Classification)" +:+ nl +:+ rest
      ∧ has_char newline "Decision Tree (Classification)" = false.
Proof.
  assert (_title sample_notebook = Ok "Decision Tree (Classification)") as H
    by reflexivity.
  split; [exact H|].
  exact (title_comes_from_a_markdown_header sample_notebook
           "Decision Tree (Classification)" H).
Defined.

Lemma title_survives_conversion_witness :
  (dict_get "cells" sample_fields = Some (JArr sample_cells)
   ∧ _construct_header (sample_self false) = Ok sample_header
   ∧ _construct_github_link_cell (sample_self false) = Ok sample_link_cell)
  ∧ _title (JObj (dict_set "cells"
                    (JArr (sample_header :: sample_link_cell :: sample_cells))
                    sample_fields))
    = _title (JObj sample_fields).
Proof.
  split; [by repeat split|].
  exact (title_survives_conversion (sample_self false) sample_fields
           sample_cells sample_header sample_link_cell
           eq_refl eq_refl eq_refl).
Defined.


Lemma title_raises_on_unexpected_cells_witness :
  (dict_get "cells" [("metadata", JObj [])] = None
   ∧ _title (JObj [("metadata", JObj [])]) = Raise (KeyError "cells"))
  ∧
  (dict_get "cells" [("cells", JNull)] = Some JNull
   ∧ _title (JObj [("cells", JNull)]) = Raise TypeError)
  ∧
  (dict_get "cells" [("cells", JArr [code "x = 1"; JObj [("source", JArr [])]])]
   = Some (JArr ([code "x = 1"] ++ JObj [("source", JArr [])] :: []))
   ∧ Forall passed_cell [code "x = 1"]
   ∧ dict_get "cell_type" [("source", JArr [])] = None
   ∧ _title (JObj [("cells",
                    JArr [code "x = 1"; JObj [("source", JArr [])]])])
     = Raise (KeyError "cell_type"))
  ∧
  (dict_get "cells"
     [("cells", JArr [code "x = 1"; JObj [("cell_type", JStr "markdown")]])]
   = Some (JArr ([code "x = 1"]
                 ++ JObj [("cell_type", JStr "markdown")] :: []))
   ∧ Forall passed_cell [code "x = 1"]
   ∧ dict_get "cell_type" [("cell_type", JStr "markdown")]
     = Some (JStr "markdown")
   ∧ dict_get "source" [("cell_type", JStr "markdown")] = None
   ∧ _title (JObj [("cells",
                    JArr [code "x = 1";
                          JObj [("cell_type", JStr "markdown")]])])
     = Raise (KeyError "source"))
  ∧
  (dict_get "cells"
     [("cells",
       JArr [code "x = 1";
             JObj [("cell_type", JStr "markdown"); ("source", JArr [])];
             markdown ("# Title" +:+ nl)])]
   = Some (JArr ([code "x = 1"]
                 ++ JObj [("cell_type", JStr "markdown"); ("source", JArr [])]
                 :: [markdown ("# Title" +:+ nl)]))
   ∧ Forall passed_cell [code "x = 1"]
   ∧ dict_get "cell_type" [("cell_type", JStr "markdown"); ("source", JArr [])]
     = Some (JStr "markdown")
   ∧ dict_get "source" [("cell_type", JStr "markdown"); ("source", JArr [])]
     = Some (JArr [])
   ∧ _title (JObj [("cells",
                    JArr [code "x = 1";
                          JObj [("cell_type", JStr "markdown");
                                ("source", JArr [])];
                          markdown ("# Title" +:+ nl)])])
     = Raise IndexError).
Proof.
  assert (Forall passed_cell [code "x = 1"]) as Hbefore.
  { constructor; [|constructor]. left. left. apply other_cell_code. }
  pose proof title_raises_on_unexpected_cells
    as (Hkey & Htype & Hcell_type & Hsource & Hempty).
  split; [|split; [|split; [|split]]].
  - split; [reflexivity|]. exact (Hkey [("metadata", JObj [])] eq_refl).
  - split; [reflexivity|]. exact (Htype [("cells", JNull)] eq_refl).
  - split; [reflexivity|]. split; [exact Hbefore|]. split; [reflexivity|].
    exact (Hcell_type
             [("cells", JArr [code "x = 1"; JObj [("source", JArr [])]])]
             [("source", JArr [])] [code "x = 1"] []
             eq_refl Hbefore eq_refl).
  - split; [reflexivity|]. split; [exact Hbefore|].
    do 2 (split; [reflexivity|]).
    exact (Hsource
             [("cells", JArr [code "x = 1";
                              JObj [("cell_type", JStr "markdown")]])]
             [("cell_type", JStr "markdown")] [code "x = 1"] []
             eq_refl Hbefore eq_refl eq_refl).
  - split; [reflexivity|]. split; [exact Hbefore|].
    do 2 (split; [reflexivity|]).
    exact (Hempty
             [("cells",
               JArr [code "x = 1";
                     JObj [("cell_type", JStr "markdown"); ("source", JArr [])];
                     markdown ("# Title" +:+ nl)])]
             [("cell_type", JStr "markdown"); ("source", JArr [])]
             [code "x = 1"] [markdown ("# Title" +:+ nl)]
             eq_refl Hbefore eq_refl eq_refl).
Defined.




Lemma marked_directory_is_skipped_whole_witness :
  (contains CONVERTED sample_marked_dir = true
   ∧ plain_names sample_marked_tree = true)
  ∧ Forall (λ p, contains CONVERTED p = true)
           (leaves sample_marked_dir sample_marked_tree)
  ∧ convert_all_posts sample_check_output sample_parse sample_strftime
      sample_wait sample_open_w sample_str_exn sample_marked_dir sample_marked_tree
      "knowledge-repo" false sample_world
    = (Ok tt, sample_world).
Proof.
  assert (contains CONVERTED sample_marked_dir = true) as Hm
    by (vm_compute; reflexivity).
  assert (plain_names sample_marked_tree = true) as Hn
    by (vm_compute; reflexivity).
  split; [by split|].
  exact (marked_directory_is_skipped_whole sample_check_output sample_parse
           sample_strftime sample_wait sample_open_w sample_str_exn sample_marked_dir
           sample_marked_tree "knowledge-repo" false sample_world Hm Hn).
Defined.

Lemma title_pattern_needs_line_break_witness :
  (has_char newline "# Decision Tree" = false
   ∧ title_pattern "# Decision Tree" = None)
  ∧
  (has_char newline "Decision Tree" = false
   ∧ plain_cell (markdown ("# " +:+ "Decision Tree")))
  ∧
  (has_char newline "Decision Tree" = false
   ∧ dict_get "cells"
       [("cells", JArr [code "x = 1"; markdown ("# " +:+ "Decision Tree")])]
     = Some (JArr ([code "x = 1"] ++ [markdown ("# " +:+ "Decision Tree")]))
   ∧ Forall plain_cell [code "x = 1"]
   ∧ _title (JObj [("cells",
                    JArr [code "x = 1"; markdown ("# " +:+ "Decision Tree")])])
     = Raise (UnboundLocalError "title")).
Proof.
  assert (Forall plain_cell [code "x = 1"]) as Hplain.
  { constructor; [|constructor]. left. apply other_cell_code. }
  pose proof title_pattern_needs_line_break as (_ & Hnone & Hcell & Htitle).
  split; [|split].
  - split; [reflexivity|]. exact (Hnone "# Decision Tree" eq_refl).
  - split; [reflexivity|]. exact (Hcell "Decision Tree" eq_refl).
  - split; [reflexivity|]. split; [reflexivity|]. split; [exact Hplain|].
    exact (Htitle
             [("cells",
               JArr [code "x = 1"; markdown ("# " +:+ "Decision Tree")])]
             [code "x = 1"] "Decision Tree" eq_refl eq_refl Hplain).
Defined.

Lemma copy_keeps_notebook_extension_witness :
  (inplace (__init__ "knowledge-repo" false) = false
   ∧ (os_path_splitext sample_good).2 = ".ipynb"
   ∧ convert sample_check_output sample_parse sample_strftime
       (__init__ "knowledge-repo" false) sample_good sample_world
     = (Ok (sample_self false, sample_converted), sample_world))
  ∧ ∃ out, _path (sample_self false) = Some out
           ∧ os_path_splitext out
             = ((os_path_splitext sample_good).1 +:+ "-converted", ".ipynb")
           ∧ String.length out = (String.length sample_good + 10)%nat
           ∧ out ≠ sample_good.
Proof.
  assert ((os_path_splitext sample_good).2 = ".ipynb") as Hext
    by (vm_compute; reflexivity).
  assert (convert sample_check_output sample_parse sample_strftime
            (__init__ "knowledge-repo" false) sample_good sample_world
          = (Ok (sample_self false, sample_converted), sample_world)) as Hconv
    by (vm_compute; reflexivity).
  split; [by repeat split|].
  exact (copy_keeps_notebook_extension sample_check_output sample_parse
           sample_strftime (__init__ "knowledge-repo" false)
           (sample_self false) sample_good sample_world sample_world
           sample_converted eq_refl Hext Hconv).
Defined.

Lemma registration_goes_under_project_witness :
  convert sample_check_output sample_parse sample_strftime
    (__init__ "knowledge-repo" false) sample_good sample_world
  = (Ok (sample_self false, sample_converted), sample_world)
  ∧ ∃ (tags link out project : string),
      _tags_and_github_link sample_good = Ok (tags, link)
      ∧ has_char "/" tags = false
      ∧ _path (sample_self false) = Some out
      ∧ (project
         = knowledge_repo_path (__init__ "knowledge-repo" false) +:+ "project"
         ∨ project
           = knowledge_repo_path (__init__ "knowledge-repo" false)
             +:+ "/project")
      ∧ (∀ e, sample_open_w out = Raise e →
              add sample_wait sample_open_w (sample_self false)
                sample_converted sample_world
              = (Raise e, sample_world))
      ∧ (sample_open_w out = Ok tt →
         ∃ (w'' : World) (status : Z),
           add sample_wait sample_open_w (sample_self false) sample_converted
             sample_world
           = (Ok tt, w'')
           ∧ stdout w'' = stdout sample_world
           ∧ processes w''
             = (processes sample_world ++
                [{| cmd := "knowledge_repo --repo "
                           +:+ knowledge_repo_path
                                 (__init__ "knowledge-repo" false)
                           +:+ " add " +:+ out +:+ " -p " +:+ project +:+ "/"
                           +:+ tags;
                    input :=
                      "generated by automated airbnb knowledge repo setup";
                    returncode := status |}])%list).
Proof.
  assert (convert sample_check_output sample_parse sample_strftime
            (__init__ "knowledge-repo" false) sample_good sample_world
          = (Ok (sample_self false, sample_converted), sample_world)) as Hconv
    by (vm_compute; reflexivity).
  split; [exact Hconv|].
  exact (registration_goes_under_project sample_check_output sample_parse
           sample_strftime sample_wait sample_open_w
           (__init__ "knowledge-repo" false)
           (sample_self false) sample_good sample_world sample_world
           sample_converted Hconv).
Defined.
